(** * Chat session store of homelab-gpt (src/ts/app-data.ts)

    A shallow embedding of the session logic of [app-data.ts]: the [Chat]
    and [AppData] classes, the streaming exchange opened by [AppData.chat],
    the debounced local persistence and the stored-data migration.

    Conventions of the embedding.
    - JavaScript objects that the code mutates in place and compares by
      reference ([Chat] instances) live in an explicit store and are named
      by references; [Message] objects are never mutated by this file, so a
      message object is a value paired with its object identity.
    - An array is a list of slots; an empty slot (a hole, which reads as
      [undefined]) is [None].
    - Every method runs to its next suspension point as one atomic step on
      the state [St]; timers, socket events and the rest of the runtime are
      part of that state.  [await this.cancel()] is not such a point:
      [cancel] never waits, and the method that awaits it resumes before
      any timer, socket or user event is handled.
    - A JavaScript string is a [string] whose characters stand for its
      UTF-16 code units. *)

From Stdlib Require Import ZArith Ascii String List Bool Lia Floats.
From stdpp Require Import base option list gmap strings.
Import ListNotations.

Local Open Scope string_scope.
Local Open Scope Z_scope.

(** ** JavaScript values the code relies on *)

(** A property declared [string] that the code also leaves [undefined]
    ([new Chat()] sets no [id]) or sets to [null] ([import]). *)
Inductive jsstr : Type :=
| Undefined
| Null
| Str (s : string).

(** Truthiness of a string-or-nothing property ([if (x)], [!x]). *)
Definition truthy_str (v : jsstr) : bool :=
  match v with
  | Str s => negb (String.eqb s "")
  | _ => false
  end.

(** Truthiness of an optional string property. *)
Definition truthy_opt (v : option string) : bool :=
  match v with
  | Some s => negb (String.eqb s "")
  | None => false
  end.

(** Loose equality [a == b] on such properties: [undefined] and [null]
    are equal to each other and to nothing else; strings compare by
    content. *)
Definition loose_eq (a b : jsstr) : bool :=
  match a, b with
  | Str x, Str y => String.eqb x y
  | Str _, _ | _, Str _ => false
  | _, _ => true
  end.

(** The outcome of running code that may throw. *)
Inductive completion (A : Type) : Type :=
| Normal (a : A)
| Throw (e : string).
Arguments Normal {A} a.
Arguments Throw {A} e.

(** ** Data model *)

Record Message : Type := mkMessage {
  msg_id : string;
  role : string;
  message : option string;
  cost_tokens_completion : option Z;
  cost_tokens_prompt : option Z;
  cost_usd : option float;
  finish_reason : option string;
  error : option string;
  start_edited : option bool
}.

(** A message object: its identity and its (immutable) content. *)
Record MsgObj : Type := mkMsgObj {
  addr : nat;
  val : Message
}.

Record Model : Type := mkModel {
  model_label : string;
  model_value : string;
  maxTokens : Z
}.

Record Settings : Type := mkSettings {
  determinism : Z;
  max_tokens : Z;
  model : string;
  api_key : string;
  prompt : string
}.

Definition new_Settings : Settings :=
  {| determinism := 50; max_tokens := 1000; model := "gpt-4";
     api_key := ""; prompt := "" |}.

Record User : Type := mkUser {
  user_name : string;
  user_ident : string;
  user_api_key : option string
}.

(** A [Chat] instance.  [settings] is optional because [label] itself
    guards against its absence ([this.settings?.prompt]). *)
Record Chat : Type := mkChat {
  id : jsstr;
  user_id : jsstr;
  name : string;
  messages : list (option MsgObj);
  settings : option Settings;
  loaded : bool;
  temporary_name : option string
}.

(** [new Chat()]: the field initialisers of the class. *)
Definition new_Chat : Chat :=
  {| id := Undefined; user_id := Undefined; name := ""; messages := [];
     settings := Some new_Settings; loaded := false;
     temporary_name := Some "" |}.

(** ** [Chat.label] *)

(** [Chat._clamp] *)
Definition _clamp (value : string) : string :=
  if 200 <? Z.of_nat (String.length value)
  then String.substring 0 200 value
  else value.

(** The [for (const message of this.messages)] loop of [label]: [Some r]
    when the loop returns [r], [None] when it falls through.  Reading
    [message.message] of an empty slot throws. *)
Fixpoint label_loop (ms : list (option MsgObj)) : completion (option string) :=
  match ms with
  | [] => Normal None
  | None :: _ => Throw "TypeError"
  | Some m :: rest =>
      if truthy_opt (message (val m))
      then Normal (Some (_clamp (default "" (message (val m)))))
      else label_loop rest
  end.

Definition label (this : Chat) : completion string :=
  if negb (String.eqb (name this) "") then Normal (name this)
  else if truthy_opt (prompt <$> settings this)
  then Normal (_clamp (default "" (prompt <$> settings this)))
  else match label_loop (messages this) with
       | Throw e => Throw e
       | Normal (Some r) => Normal r
       | Normal None =>
           if truthy_opt (temporary_name this)
           then Normal (default "" (temporary_name this))
           else Normal "New Chat"
       end.

(** [Chat.createEmptyChat] *)
Definition createEmptyChat : Chat :=
  {| id := id new_Chat; user_id := user_id new_Chat; name := name new_Chat;
     messages := messages new_Chat; settings := settings new_Chat;
     loaded := true; temporary_name := temporary_name new_Chat |}.

(** ** Arrays *)

Section Arrays.
Context {A : Type}.

(** [arr.splice(start, deleteCount, ...items)]: the array afterwards. *)
Definition splice (start deleteCount : Z) (items : list A) (arr : list A)
  : list A :=
  let len := Z.of_nat (length arr) in
  let relStart := if start <? 0 then Z.max (len + start) 0
                  else Z.min start len in
  let dc := Z.min (Z.max deleteCount 0) (len - relStart) in
  take (Z.to_nat relStart) arr ++ items
    ++ drop (Z.to_nat (relStart + dc)) arr.

(** [arr.push(item)] *)
Definition push (item : A) (arr : list (option A)) : list (option A) :=
  arr ++ [Some item].

(** [arr[i] = v].  Inside the array the slot is replaced; at or past
    the end the array grows and the slots in between stay empty; a
    negative [i] names an ordinary property and leaves every slot as it
    is. *)
Definition array_set (i : Z) (v : A) (arr : list (option A))
  : list (option A) :=
  if i <? 0 then arr
  else if i <? Z.of_nat (length arr) then <[Z.to_nat i := Some v]> arr
  else arr ++ replicate (Z.to_nat i - length arr) None ++ [Some v].
End Arrays.

(** [arr.indexOf(m)] on an array of message objects: strict equality of
    objects is identity; empty slots are skipped; -1 when absent. *)
Fixpoint indexOf_from (k : Z) (m : MsgObj) (arr : list (option MsgObj)) : Z :=
  match arr with
  | [] => -1
  | Some x :: rest =>
      if Nat.eqb (addr x) (addr m) then k else indexOf_from (k + 1) m rest
  | None :: rest => indexOf_from (k + 1) m rest
  end.

Definition indexOf (m : MsgObj) (arr : list (option MsgObj)) : Z :=
  indexOf_from 0 m arr.

(** ** The application state *)

(** [LocalSaveInfo] as written to local storage. *)
Record LocalSaveInfo : Type := mkLocalSaveInfo {
  lsi_user : option User;
  lsi_chat : option Chat;
  lsi_version : option Z
}.

(** The request frame built by [AppData.chat]. *)
Record Request : Type := mkRequest {
  req_messages : list (option MsgObj);
  req_model : string;
  req_temperature : float;
  req_prompt : string;
  req_id : string;
  req_max_tokens : Z;
  req_continuation : option string;
  req_api_key : string
}.

(** What the handlers of one streaming socket close over: [request],
    [chat], [index] and the local variable [message], which the handlers
    reassign. *)
Record Exchange : Type := mkExchange {
  ex_request : Request;
  ex_chat : nat;
  ex_index : Z;
  ex_message : MsgObj
}.

(** Calls that leave the object: to the subscriber, to the transport and
    to the remote store. *)
Inductive Effect : Type :=
| Published (callback : nat)
| Aborted (controller : nat)
| WsBuilt (ws : nat)
| WsClosed (ws : nat)
| WsSent (ws : nat) (frame : Request)
| HttpGetChat (chat_id : jsstr)
| HttpPostChat (body : Chat).

(** The fields of an [AppData] instance.  Chats are references into the
    store of [Chat] objects. *)
Record AppData : Type := mkAppData {
  chats : list nat;
  user : option User;
  currentChat : option nat;
  unsavedChat : option nat;
  models : list Model;
  users : list User;
  busy : bool;
  _dirtySave : option nat;
  abortController : option nat;
  streamWebSocket : option nat;
  publishCallback : option nat
}.

(** [new AppData()] *)
Definition new_AppData : AppData :=
  {| chats := []; user := None; currentChat := None; unsavedChat := None;
     models := []; users := []; busy := false; _dirtySave := None;
     abortController := None; streamWebSocket := None;
     publishCallback := None |}.

(** The part of the JavaScript runtime the object works against. *)
Record Runtime : Type := mkRuntime {
  heap : gmap nat Chat;          (* the Chat objects *)
  next_obj : nat;                (* identity of the next object created *)
  timers : gmap nat Z;           (* pending timeouts: handle to delay in ms *)
  next_timer : nat;
  localStorage : gmap string LocalSaveInfo;
  sockets : gmap nat Exchange;   (* sockets built so far *)
  next_ws : nat;
  uuids : nat -> string;         (* the values uuidv4() returns, in order *)
  next_uuid : nat;
  log : list Effect              (* most recent call first *)
}.

Record St : Type := mkSt {
  app : AppData;
  rt : Runtime
}.

Global Instance Chat_inhabited : Inhabited Chat := populate new_Chat.

(** *** Field updates *)

Definition set_currentChat (v : option nat) (a : AppData) : AppData :=
  mkAppData (chats a) (user a) v (unsavedChat a) (models a) (users a)
    (busy a) (_dirtySave a) (abortController a) (streamWebSocket a)
    (publishCallback a).

Definition set_unsavedChat (v : option nat) (a : AppData) : AppData :=
  mkAppData (chats a) (user a) (currentChat a) v (models a) (users a)
    (busy a) (_dirtySave a) (abortController a) (streamWebSocket a)
    (publishCallback a).

Definition set_busy (v : bool) (a : AppData) : AppData :=
  mkAppData (chats a) (user a) (currentChat a) (unsavedChat a) (models a)
    (users a) v (_dirtySave a) (abortController a) (streamWebSocket a)
    (publishCallback a).

Definition set_dirtySave (v : option nat) (a : AppData) : AppData :=
  mkAppData (chats a) (user a) (currentChat a) (unsavedChat a) (models a)
    (users a) (busy a) v (abortController a) (streamWebSocket a)
    (publishCallback a).

Definition set_abortController (v : option nat) (a : AppData) : AppData :=
  mkAppData (chats a) (user a) (currentChat a) (unsavedChat a) (models a)
    (users a) (busy a) (_dirtySave a) v (streamWebSocket a)
    (publishCallback a).

Definition set_streamWebSocket (v : option nat) (a : AppData) : AppData :=
  mkAppData (chats a) (user a) (currentChat a) (unsavedChat a) (models a)
    (users a) (busy a) (_dirtySave a) (abortController a) v
    (publishCallback a).

Definition set_heap (v : gmap nat Chat) (r : Runtime) : Runtime :=
  mkRuntime v (next_obj r) (timers r) (next_timer r) (localStorage r)
    (sockets r) (next_ws r) (uuids r) (next_uuid r) (log r).

Definition set_next_obj (v : nat) (r : Runtime) : Runtime :=
  mkRuntime (heap r) v (timers r) (next_timer r) (localStorage r)
    (sockets r) (next_ws r) (uuids r) (next_uuid r) (log r).

Definition set_timers (v : gmap nat Z) (n : nat) (r : Runtime) : Runtime :=
  mkRuntime (heap r) (next_obj r) v n (localStorage r)
    (sockets r) (next_ws r) (uuids r) (next_uuid r) (log r).

Definition set_localStorage (v : gmap string LocalSaveInfo) (r : Runtime)
  : Runtime :=
  mkRuntime (heap r) (next_obj r) (timers r) (next_timer r) v
    (sockets r) (next_ws r) (uuids r) (next_uuid r) (log r).

Definition set_sockets (v : gmap nat Exchange) (n : nat) (r : Runtime)
  : Runtime :=
  mkRuntime (heap r) (next_obj r) (timers r) (next_timer r) (localStorage r)
    v n (uuids r) (next_uuid r) (log r).

Definition set_next_uuid (v : nat) (r : Runtime) : Runtime :=
  mkRuntime (heap r) (next_obj r) (timers r) (next_timer r) (localStorage r)
    (sockets r) (next_ws r) (uuids r) v (log r).

Definition set_log (v : list Effect) (r : Runtime) : Runtime :=
  mkRuntime (heap r) (next_obj r) (timers r) (next_timer r) (localStorage r)
    (sockets r) (next_ws r) (uuids r) (next_uuid r) v.

Definition on_app (f : AppData -> AppData) (s : St) : St :=
  mkSt (f (app s)) (rt s).

Definition on_rt (f : Runtime -> Runtime) (s : St) : St :=
  mkSt (app s) (f (rt s)).

(** Record a call to a collaborator. *)
Definition emit (e : Effect) : St -> St :=
  on_rt (fun r => set_log (e :: log r) r).

(** The [Chat] object behind a reference. *)
Definition deref (s : St) (c : nat) : Chat := heap (rt s) !!! c.

(** Overwrite the [Chat] object behind a reference. *)
Definition store (c : nat) (v : Chat) : St -> St :=
  on_rt (fun r => set_heap (<[c := v]> (heap r)) r).

Definition set_messages (v : list (option MsgObj)) (c : Chat) : Chat :=
  mkChat (id c) (user_id c) (name c) v (settings c) (loaded c)
    (temporary_name c).

Definition set_temporary_name (v : option string) (c : Chat) : Chat :=
  mkChat (id c) (user_id c) (name c) (messages c) (settings c) (loaded c) v.

(** [uuidv4()] *)
Definition uuidv4 (s : St) : string * St :=
  (uuids (rt s) (next_uuid (rt s)),
   on_rt (fun r => set_next_uuid (S (next_uuid r)) r) s).

(** Identity of a newly created object. *)
Definition new_object (s : St) : nat * St :=
  (next_obj (rt s), on_rt (fun r => set_next_obj (S (next_obj r)) r) s).

(** ** [AppData] methods *)

(** [AppData.publish] *)
Definition publish (s : St) : St :=
  match publishCallback (app s) with
  | Some cb => emit (Published cb) s
  | None => s
  end.

(** [clearTimeout(t)] *)
Definition clearTimeout (t : nat) : St -> St :=
  on_rt (fun r => set_timers (delete t (timers r)) (next_timer r) r).

(** [setTimeout(() => this._doSave(), delay)]: the handle and the state. *)
Definition setTimeout (delay : Z) (s : St) : nat * St :=
  let t := next_timer (rt s) in
  (t, on_rt (fun r => set_timers (<[t := delay]> (timers r)) (S t) r) s).

(** [AppData.dirty] *)
Definition dirty (saveNow : bool) (s : St) : St :=
  let s :=
    match _dirtySave (app s) with
    | Some t => on_app (set_dirtySave None) (clearTimeout t s)
    | None => s
    end in
  let '(t, s) := setTimeout (if saveNow then 1 else 1500) s in
  on_app (set_dirtySave (Some t)) s.

(** [AppData.isSaved] *)
Definition isSaved (s : St) : bool :=
  match currentChat (app s) with
  | None => false
  | Some c =>
      match user (app s) with
      | None => false
      | Some u =>
          if negb (truthy_str (id (deref s c))) then false
          else if negb (loose_eq (user_id (deref s c)) (Str (user_ident u)))
          then false
          else if negb (loaded (deref s c)) then false
          else true
      end
  end.

(** [AppData._doSave], up to the point where it awaits the remote store.
    When [label] throws, the method ends there: the write to local storage
    has happened, the rest has not. *)
Definition _doSave (s : St) : St :=
  let chatToSave :=
    if isSaved s && bool_decide (is_Some (unsavedChat (app s)))
    then unsavedChat (app s)
    else currentChat (app s) in
  let serialize :=
    {| lsi_chat := deref s <$> chatToSave;
       lsi_user := user (app s);
       lsi_version := Some 3 |} in
  let s := on_rt (fun r =>
             set_localStorage (<["appData" := serialize]> (localStorage r)) r)
             s in
  if isSaved s then
    match currentChat (app s) with
    | Some c =>
        match label (deref s c) with
        | Normal l =>
            let s := store c (set_temporary_name (Some l) (deref s c)) s in
            emit (HttpPostChat (deref s c)) s
        | Throw _ => s
        end
    | None => s
    end
  else s.

(** A timeout set by [dirty] fires: it leaves the pending timers and runs
    its callback. *)
Definition timer_fires (t : nat) (s : St) : St :=
  match timers (rt s) !! t with
  | Some _ => _doSave (clearTimeout t s)
  | None => s
  end.

(** [AppData.openChat], up to the point where it awaits the fetch of a
    chat that is not loaded. *)
Definition openChat (chat : option nat) (s : St) : St :=
  match chat with
  | None =>
      let s :=
        if isSaved s then
          let s :=
            match unsavedChat (app s) with
            | Some u => on_app (set_currentChat (Some u)) s
            | None =>
                let '(newChat, s) := new_object s in
                let '(uuid, s) := uuidv4 s in
                let s :=
                  store newChat
                    (mkChat (Str uuid) (user_id new_Chat) (name new_Chat)
                       (messages new_Chat) (settings new_Chat) true
                       (temporary_name new_Chat)) s in
                on_app (set_currentChat (Some newChat)) s
            end in
          on_app (set_unsavedChat None) s
        else s in
      publish s
  | Some chat =>
      let s :=
        if negb (bool_decide (currentChat (app s) = Some chat))
           && negb (isSaved s)
        then on_app (set_unsavedChat (currentChat (app s))) s
        else s in
      if loaded (deref s chat) then
        publish (on_app (set_currentChat (Some chat)) s)
      else
        let s := publish (on_app (set_currentChat (Some chat)) s) in
        emit (HttpGetChat (id (deref s chat))) s
  end.

(** [AppData.cancel] *)
Definition cancel (s : St) : St :=
  let s :=
    match abortController (app s) with
    | Some ac => on_app (set_abortController None) (emit (Aborted ac) s)
    | None => s
    end in
  let s :=
    match streamWebSocket (app s) with
    | Some ws => on_app (set_streamWebSocket None) (emit (WsClosed ws) s)
    | None => s
    end in
  let s := on_app (set_busy false) s in
  dirty false s.

(** The [messages] array of the current chat, rewritten in place. *)
Definition update_messages (c : nat)
    (f : list (option MsgObj) -> list (option MsgObj)) (s : St) : St :=
  store c (set_messages (f (messages (deref s c))) (deref s c)) s.

(** [AppData.delete] *)
Definition delete_message (msg : MsgObj) (s : St) : St :=
  match currentChat (app s) with
  | None => s
  | Some c =>
      let s := cancel s in
      let index := indexOf msg (messages (deref s c)) in
      let s := if 0 <=? index
               then update_messages c (splice index 1 []) s
               else s in
      dirty false s
  end.

(** [AppData.insertMessage] *)
Definition insertMessage (oldMessage : option MsgObj) (newMessage : MsgObj)
    (s : St) : St :=
  match currentChat (app s) with
  | None => s
  | Some c =>
      let index :=
        match oldMessage with
        | Some old => indexOf old (messages (deref s c)) + 1
        | None => 0
        end in
      let s := update_messages c (splice index 0 [Some newMessage]) s in
      dirty false s
  end.

(** [AppData.truncate] *)
Definition truncate (msg : MsgObj) (s : St) : St :=
  match currentChat (app s) with
  | None => s
  | Some c =>
      let index := indexOf msg (messages (deref s c)) in
      if 0 <=? index
      then update_messages c
             (fun ms => splice index (Z.of_nat (length ms) - index) [] ms) s
      else s
  end.

(** ** The streaming exchange *)

(** The [temperature] field of the request: [((100 - determinism) / 100) * 2]
    on JavaScript numbers, which are IEEE 754 binary64 values. *)
Definition temperature (determinism : float) : float :=
  ((100 - determinism) / 100 * 2)%float.

(** [AppData.chat]: everything up to and including [.build()].  The
    parameters [messages] and [message] of the source are [messages_] and
    [message_] here; [None] is the default [null]. *)
Definition chat (prompt model : string) (determinism : float) (maxTokens : Z)
    (api_key : string) (messages_ : option (list (option MsgObj)))
    (message_ : option MsgObj) (s : St) : St :=
  let s := cancel s in
  let s := on_app (set_busy true) s in
  match currentChat (app s) with
  | None => s
  | Some chat =>
      let messages_ :=
        match messages_ with
        | Some ms => ms
        | None => messages (deref s chat)
        end in
      let '(message_, continuation, s) :=
        match message_ with
        | None =>
            let '(uuid, s) := uuidv4 s in
            let '(a, s) := new_object s in
            let m :=
              {| addr := a;
                 val := {| role := "assistant"; message := Some "...";
                           msg_id := uuid;
                           cost_tokens_completion := None;
                           cost_tokens_prompt := None; cost_usd := None;
                           finish_reason := None; error := None;
                           start_edited := None |} |} in
            (m, Some "", update_messages chat (push m) s)
        | Some m => (m, message (val m), s)
        end in
      let request :=
        {| req_messages := messages_;
           req_model := model;
           req_temperature := temperature determinism;
           req_prompt := prompt;
           req_id := msg_id (val message_);
           req_max_tokens := maxTokens;
           req_continuation := continuation;
           req_api_key := api_key |} in
      let index := indexOf message_ (messages (deref s chat)) in
      let ws := next_ws (rt s) in
      let s :=
        on_rt (fun r =>
          set_sockets
            (<[ws := mkExchange request chat index message_]> (sockets r))
            (S ws) r) s in
      emit (WsBuilt ws) (on_app (set_streamWebSocket (Some ws)) s)
  end.

(** The [onOpen] handler: the request frame is sent. *)
Definition onOpen (ws : nat) (s : St) : St :=
  match sockets (rt s) !! ws with
  | Some ex => emit (WsSent ws (ex_request ex)) s
  | None => s
  end.

(** The [onClose] handler. *)
Definition onClose (ws : nat) (s : St) : St :=
  match sockets (rt s) !! ws with
  | Some ex => dirty false (publish (on_app (set_busy false) s))
  | None => s
  end.

(** Reassign the captured variable [message] of a socket's handlers. *)
Definition set_ex_message (ws : nat) (m : MsgObj) : St -> St :=
  on_rt (fun r =>
    set_sockets
      (alter (fun ex => mkExchange (ex_request ex) (ex_chat ex) (ex_index ex) m)
         ws (sockets r))
      (next_ws r) r).

(** The [onMessage] handler; [data] is the parsed frame, a new object. *)
Definition onMessage (ws : nat) (data : Message) (s : St) : St :=
  match sockets (rt s) !! ws with
  | Some ex =>
      let '(a, s) := new_object s in
      let data := {| addr := a; val := data |} in
      let s := update_messages (ex_chat ex) (array_set (ex_index ex) data) s in
      let s := set_ex_message ws data s in
      publish s
  | None => s
  end.

(** The [onError] handler; [ev] is the event as it prints in a string. *)
Definition onError (ws : nat) (ev : string) (s : St) : St :=
  match sockets (rt s) !! ws with
  | Some ex =>
      let '(a, s) := new_object s in
      let old := val (ex_message ex) in
      let copy :=
        {| addr := a;
           val := {| msg_id := msg_id old; role := role old;
                     message := message old;
                     cost_tokens_completion := cost_tokens_completion old;
                     cost_tokens_prompt := cost_tokens_prompt old;
                     cost_usd := cost_usd old;
                     finish_reason := finish_reason old;
                     error := Some ("Websocket error: " ++ ev)%string;
                     start_edited := start_edited old |} |} in
      let s := set_ex_message ws copy s in
      let s := update_messages (ex_chat ex) (array_set (ex_index ex) copy) s in
      let s := on_app (set_busy false) s in
      dirty false (publish s)
  | None => s
  end.

(** ** Stored data and its migration *)

(** What [JSON.parse] returns, extended with [undefined], which the
    migration stores into a property.  [JNum] is a number with an integer
    value; [JFrac] is any other number, kept as its literal. *)
#[local] Set Warnings "-register-all".
Inductive json : Type :=
| JUndefined
| JNull
| JBool (b : bool)
| JNum (n : Z)
| JFrac (literal : string)
| JStr (s : string)
| JArr (items : list json)
| JObj (props : list (string * json)).

(** Own property lookup in the property list of an object. *)
Fixpoint get_prop (k : string) (props : list (string * json)) : json :=
  match props with
  | [] => JUndefined
  | (k', v) :: rest => if String.eqb k' k then v else get_prop k rest
  end.

(** Property assignment on an object: an existing property keeps its
    place, a new one goes last. *)
Fixpoint set_prop (k : string) (v : json) (props : list (string * json))
  : list (string * json) :=
  match props with
  | [] => [(k, v)]
  | (k', v') :: rest =>
      if String.eqb k' k then (k', v) :: rest
      else (k', v') :: set_prop k v rest
  end.

(** [x.k] for the property names the migration reads.  Reading a property
    of [undefined] or [null] throws; values that are not plain objects
    have no such property. *)
Definition get (x : json) (k : string) : completion json :=
  match x with
  | JUndefined | JNull => Throw "TypeError"
  | JObj props => Normal (get_prop k props)
  | _ => Normal JUndefined
  end.

(** Truthiness of a value. *)
Definition truthy (v : json) : bool :=
  match v with
  | JUndefined | JNull => false
  | JBool b => b
  | JNum n => negb (n =? 0)
  | JFrac _ => true
  | JStr s => negb (String.eqb s "")
  | JArr _ | JObj _ => true
  end.

Section Migration.

(** The runtime's conversion to a number of a string, an array or an
    object (through its primitive value); [None] when the result is not
    an integer. *)
Variable ToNumber : json -> option Z.

(** [v == k] for a number literal [k]. *)
Definition loose_eq_num (v : json) (k : Z) : bool :=
  match v with
  | JUndefined | JNull => false
  | JBool b => (if b then 1 else 0) =? k
  | JNum n => n =? k
  | JFrac _ => false
  | JStr _ | JArr _ | JObj _ =>
      match ToNumber v with
      | Some n => n =? k
      | None => false
      end
  end.

(** One pass of the body of the version-1 loop over a message, without
    the assignment to [source.serializationVersion]. *)
Definition upgrade_message (message : json) : completion json :=
  match message with
  | JUndefined | JNull => Throw "TypeError"
  | JObj props =>
      if truthy (get_prop "cost_tokens" props)
      then Normal (JObj (set_prop "cost_tokens" JUndefined
                           (set_prop "cost_tokens_completion"
                              (get_prop "cost_tokens" props) props)))
      else Normal message
  | _ => Normal message
  end.

(** The loop over an array of messages. *)
Fixpoint upgrade_messages (items : list json) : completion (list json) :=
  match items with
  | [] => Normal []
  | m :: rest =>
      match upgrade_message m with
      | Throw e => Throw e
      | Normal m' =>
          match upgrade_messages rest with
          | Throw e => Throw e
          | Normal rest' => Normal (m' :: rest')
          end
      end
  end.

(** The version-1 branch on an object with properties [props]. *)
Definition upgrade_v1 (props : list (string * json)) : completion json :=
  match get_prop "messages" props with
  | JArr items =>
      match upgrade_messages items with
      | Throw e => Throw e
      | Normal items' =>
          let props := set_prop "messages" (JArr items') props in
          Normal (JObj (match items with
                        | [] => props
                        | _ :: _ => set_prop "serializationVersion" (JNum 2) props
                        end))
      end
  | JStr chars =>
      (* the loop runs once per character; a character has no
         [cost_tokens] *)
      Normal (JObj (if String.eqb chars "" then props
                    else set_prop "serializationVersion" (JNum 2) props))
  | _ => Throw "TypeError"
  end.

(** [AppData.upgradeStoredData] *)
Definition upgradeStoredData (source : json) : completion json :=
  match get source "serializationVersion" with
  | Throw e => Throw e
  | Normal v =>
      let step1 :=
        if loose_eq_num v 1 then
          match source with
          | JObj props => upgrade_v1 props
          | _ => Normal source
          end
        else Normal source in
      match step1 with
      | Throw e => Throw e
      | Normal source =>
          match get source "serializationVersion" with
          | Throw e => Throw e
          | Normal v =>
              if loose_eq_num v 2 then
                Normal (JObj [("chat", source); ("user", JNull);
                              ("serializationVersion", JNum 3)])
              else Normal source
          end
      end
  end.

End Migration.

(** ** Notions used to state the properties *)




(** ** Sample inputs *)

Definition sample_message (i : string) (text : option string) : Message :=
  {| msg_id := i; role := "user"; message := text;
     cost_tokens_completion := None; cost_tokens_prompt := None;
     cost_usd := None; finish_reason := None; error := None;
     start_edited := None |}.


(** A saved chat of user "u1" and that user. *)
Definition saved_chat : Chat :=
  {| id := Str "c1"; user_id := Str "u1"; name := ""; messages := [];
     settings := Some new_Settings; loaded := true;
     temporary_name := Some "" |}.

Definition user1 : User :=
  {| user_name := "Ann"; user_ident := "u1"; user_api_key := None |}.

Definition empty_runtime : Runtime :=
  {| heap := ∅; next_obj := 0; timers := ∅; next_timer := 0;
     localStorage := ∅; sockets := ∅; next_ws := 0;
     uuids := fun n => String (Ascii.ascii_of_nat (97 + n)) "";
     next_uuid := 0; log := [] |}.

(** A state whose current chat is [saved_chat], at reference 0, owned by
    the active user. *)
Definition saved_state : St :=
  {| app := set_currentChat (Some 0%nat)
              (mkAppData [0%nat] (Some user1) None None [] [] false None
                 None None None);
     rt := set_next_obj 1 (set_heap {[ 0%nat := saved_chat ]} empty_runtime) |}.

(** What the specification says of [openChat(null)]: the stashed draft
    becomes current when one exists and the current chat is saved;
    otherwise a newly made chat without messages becomes current. *)
Definition open_none_as_specified (s : St) : Prop :=
  let s' := openChat None s in
  if isSaved s && bool_decide (is_Some (unsavedChat (app s)))
  then currentChat (app s') = unsavedChat (app s)
  else exists c,
         currentChat (app s') = Some c /\
         heap (rt s) !! c = None /\
         messages (deref s' c) = [].

(** A state whose current chat is an unsaved draft holding one message;
    no user is set. *)
Definition draft_state : St :=
  {| app := set_currentChat (Some 0%nat) new_AppData;
     rt := set_next_obj 2
             (set_heap
                {[ 0%nat := set_messages
                              [Some (mkMsgObj 1 (sample_message "m1" (Some "hello")))]
                              createEmptyChat ]}
                empty_runtime) |}.

(** What the specification asks of an incoming frame: the message is
    looked up by its id in the array as it is when the frame arrives. *)
Fixpoint index_of_id_from (k : Z) (i : string) (arr : list (option MsgObj)) : Z :=
  match arr with
  | [] => -1
  | Some x :: rest =>
      if String.eqb (msg_id (val x)) i then k
      else index_of_id_from (k + 1) i rest
  | None :: rest => index_of_id_from (k + 1) i rest
  end.

Definition onMessage_by_id (ws : nat) (data : Message) (s : St) : St :=
  match sockets (rt s) !! ws with
  | Some ex =>
      let '(a, s) := new_object s in
      let data := {| addr := a; val := data |} in
      let index :=
        index_of_id_from 0 (req_id (ex_request ex))
          (messages (deref s (ex_chat ex))) in
      let s := update_messages (ex_chat ex) (array_set index data) s in
      let s := set_ex_message ws data s in
      publish s
  | None => s
  end.

(** The message of [draft_state], a message the user inserts while a
    reply is streaming, and the first frame of that reply. *)
Definition first_message : MsgObj :=
  mkMsgObj 1 (sample_message "m1" (Some "hello")).

Definition inserted_message : MsgObj :=
  mkMsgObj 100 (sample_message "m2" (Some "context")).

Definition reply_frame : Message :=
  {| msg_id := "a"; role := "assistant"; message := Some "Hi";
     cost_tokens_completion := None; cost_tokens_prompt := None;
     cost_usd := None; finish_reason := None; error := None;
     start_edited := None |}.

(** A reply is requested in [draft_state] (socket 0 is built and a
    placeholder with id "a" is appended), then a message is inserted at
    the front of the chat. *)
Definition streaming_then_insert : St :=
  insertMessage None inserted_message
    (chat "" "gpt-4" 50 1000 "" None None draft_state).

(** The JavaScript number with integer value [d]. *)
Definition number_of_Z (d : Z) : float := PrimFloat.of_uint63 (Uint63.of_Z d).

(** The temperature for an integer [d] lies between 0 and 2. *)
Definition temperature_in_range (d : Z) : bool :=
  ((0 <=? temperature (number_of_Z d)) &&
   (temperature (number_of_Z d) <=? 2))%float.

(** The temperature for an integer [d] is within half a unit in the last
    place of the exact quotient [(100 - d) / 50]: it is [m * 2^e] with a
    full 53-bit mantissa [m] and [|m * 2^e - (100 - d) / 50| <= 2^e / 2],
    or it is zero and so is the quotient. *)
Definition temperature_nearest (d : Z) : bool :=
  match Prim2SF (temperature (number_of_Z d)) with
  | S754_zero _ => d =? 100
  | S754_finite false m e =>
      (e <=? 0) && (2 ^ 52 <=? Z.pos m) &&
      (2 * Z.abs (50 * Z.pos m - (100 - d) * 2 ^ (- e)) <=? 50)
  | _ => false
  end.

(** The version-3 wrapping of a chat blob. *)
Definition wrapped (chat : json) : json :=
  JObj [("chat", chat); ("user", JNull); ("serializationVersion", JNum 3)].

(** A version-1 blob of a chat without messages, and one of a chat with a
    message that carries the combined token counter. *)
Definition v1_empty_chat : json :=
  JObj [("id", JStr "c1"); ("name", JStr "Notes"); ("messages", JArr []);
        ("serializationVersion", JNum 1)].

Definition v1_chat : json :=
  JObj [("id", JStr "c1"); ("name", JStr "Notes");
        ("messages",
         JArr [JObj [("id", JStr "m1"); ("role", JStr "assistant");
                     ("message", JStr "hello"); ("cost_tokens", JNum 7)]]);
        ("serializationVersion", JNum 1)].

(** [saved_state] with an unsaved draft stashed at reference 1. *)
Definition stashed_draft : Chat :=
  set_messages [Some (mkMsgObj 2 (sample_message "m1" (Some "draft text")))]
    createEmptyChat.

Definition saved_state_with_draft : St :=
  {| app := set_unsavedChat (Some 1%nat) (app saved_state);
     rt := set_next_obj 3
             (set_heap (<[1%nat := stashed_draft]> (heap (rt saved_state)))
                (rt saved_state)) |}.

(** A chat whose only message has 250 characters of text. *)
Definition long_text : string :=
  string_of_list_ascii (replicate 250 "x"%char).

Definition chat_with_long_message : Chat :=
  set_messages [Some (mkMsgObj 1 (sample_message "m1" (Some long_text)))]
    new_Chat.

(** ** The other methods of [AppData] *)

(** How a method that may throw ends, with the state it leaves. *)
Inductive outcome : Type :=
| Returned (s : St)
| Threw (e : string) (s : St).

Definition set_chats (v : list nat) (a : AppData) : AppData :=
  mkAppData v (user a) (currentChat a) (unsavedChat a) (models a) (users a)
    (busy a) (_dirtySave a) (abortController a) (streamWebSocket a)
    (publishCallback a).

Definition set_user (v : option User) (a : AppData) : AppData :=
  mkAppData (chats a) v (currentChat a) (unsavedChat a) (models a) (users a)
    (busy a) (_dirtySave a) (abortController a) (streamWebSocket a)
    (publishCallback a).

Definition set_publishCallback (v : option nat) (a : AppData) : AppData :=
  mkAppData (chats a) (user a) (currentChat a) (unsavedChat a) (models a)
    (users a) (busy a) (_dirtySave a) (abortController a) (streamWebSocket a)
    v.

Definition set_id (v : jsstr) (c : Chat) : Chat :=
  mkChat v (user_id c) (name c) (messages c) (settings c) (loaded c)
    (temporary_name c).

Definition set_user_id (v : jsstr) (c : Chat) : Chat :=
  mkChat (id c) v (name c) (messages c) (settings c) (loaded c)
    (temporary_name c).

Definition set_loaded (v : bool) (c : Chat) : Chat :=
  mkChat (id c) (user_id c) (name c) (messages c) (settings c) v
    (temporary_name c).

(** [arr.indexOf(c)] on an array of chats: identity of the objects. *)
Fixpoint indexOf_chat_from (k : Z) (c : nat) (arr : list nat) : Z :=
  match arr with
  | [] => -1
  | x :: rest => if Nat.eqb x c then k else indexOf_chat_from (k + 1) c rest
  end.

Definition indexOf_chat (c : nat) (arr : list nat) : Z :=
  indexOf_chat_from 0 c arr.

(** [AppData.bindToUpdates] *)
Definition bindToUpdates (callback : nat) : St -> St :=
  on_app (set_publishCallback (Some callback)).

(** [AppData.newChat].  It throws when no user is set. *)
Definition newChat (s : St) : outcome :=
  let '(chat, s) := new_object s in
  let '(uuid, s) := uuidv4 s in
  let s := store chat (set_loaded true (set_id (Str uuid) new_Chat)) s in
  match user (app s) with
  | None => Threw "TypeError" s
  | Some u =>
      let s := store chat (set_user_id (Str (user_ident u)) (deref s chat)) s in
      let s := on_app (fun a => set_chats (chats a ++ [chat]) a) s in
      Returned (openChat (Some chat) s)
  end.

(** [AppData.saveCurrentDraft].  The call of [openChat] it ends with is
    followed up to that method's first suspension point.  With a user but
    no current chat, the assignment to [this.currentChat.id] throws once
    [uuidv4()] has been called. *)
Definition saveCurrentDraft (s : St) : outcome :=
  if isSaved s then Returned s
  else
    match user (app s) with
    | None => Returned s
    | Some u =>
        match currentChat (app s) with
        | None => Threw "TypeError" (uuidv4 s).2
        | Some c =>
            let '(uuid, s) := uuidv4 s in
            let s := store c (set_id (Str uuid) (deref s c)) s in
            let s := store c (set_user_id (Str (user_ident u)) (deref s c)) s in
            let s :=
              if bool_decide (c ∈ chats (app s)) then s
              else on_app (fun a => set_chats (chats a ++ [c]) a) s in
            let s := on_app (set_unsavedChat None) s in
            let s := openChat (Some c) s in
            Returned (dirty false s)
        end
    end.

(** [AppData.deleteCurrentChat] once the remote delete has answered; the
    method gets there only when [isSaved] held at its start. *)
Definition deleteCurrentChat_resume (s : St) : St :=
  let index :=
    match currentChat (app s) with
    | Some c => indexOf_chat c (chats (app s))
    | None => -1
    end in
  let s :=
    if 0 <=? index
    then on_app (fun a => set_chats (splice index 1 [] (chats a)) a) s
    else s in
  let s :=
    if bool_decide (currentChat (app s) = unsavedChat (app s))
    then on_app (set_unsavedChat None) s
    else s in
  let s := openChat None s in
  dirty true s.

(** [AppData.import]; [data] is the [Chat] instance that
    [plainToInstance] makes of the imported object. *)
Definition import (data : Chat) (s : St) : St :=
  let '(chat, s) := new_object s in
  let '(uuid, s) := uuidv4 s in
  let s := store chat (set_user_id Null (set_id (Str uuid) data)) s in
  let s := openChat (Some chat) s in
  let s := on_app (set_unsavedChat None) s in
  dirty false s.

(** [AppData.openChat] once the fetch of a chat that was not loaded has
    answered with [data]. *)
Fixpoint replace_first_by_id (s : St) (data_id : jsstr) (d : nat)
    (arr : list nat) : option (list nat) :=
  match arr with
  | [] => None
  | x :: rest =>
      if loose_eq (id (deref s x)) data_id then Some (d :: rest)
      else cons x <$> replace_first_by_id s data_id d rest
  end.

Definition openChat_resume (data : Chat) (s : St) : St :=
  let '(d, s) := new_object s in
  let s := store d (set_loaded true data) s in
  let s :=
    match replace_first_by_id s (id data) d (chats (app s)) with
    | Some chats' => on_app (set_chats chats') s
    | None => on_app (fun a => set_chats (chats a ++ [d]) a) s
    end in
  publish (on_app (set_currentChat (Some d)) s).

(** The loop of [AppData.continue] that collects the messages to send. *)
Fixpoint toSend (cont : MsgObj) (ms : list (option MsgObj))
  : list (option MsgObj) :=
  match ms with
  | [] => []
  | Some m :: rest =>
      Some m :: (if Nat.eqb (addr m) (addr cont) then [] else toSend cont rest)
  | None :: rest => None :: toSend cont rest
  end.

(** [AppData.continue] *)
Definition continue (cont : MsgObj) (prompt model : string)
    (determinism : float) (maxTokens : Z) (apiKey : string) (s : St) : St :=
  match currentChat (app s) with
  | None => s
  | Some c =>
      chat prompt model determinism maxTokens apiKey
        (Some (toSend cont (messages (deref s c)))) (Some cont) s
  end.

(** The loop of [AppData.getCurrentModel] over the models, for a chat
    with settings [st]; reading the model of absent settings throws. *)
Fixpoint find_model (st : option Settings) (ms : list Model)
  : completion (option Model) :=
  match ms with
  | [] => Normal None
  | m :: rest =>
      match st with
      | None => Throw "TypeError"
      | Some st =>
          if String.eqb (model_value m) (model st) then Normal (Some m)
          else find_model (Some st) rest
      end
  end.

(** [AppData.getCurrentModel]; [None] is [undefined]. *)
Definition getCurrentModel (s : St) : completion (option Model) :=
  let found :=
    match currentChat (app s) with
    | Some c => find_model (settings (deref s c)) (models (app s))
    | None => Normal None
    end in
  match found with
  | Throw e => Throw e
  | Normal (Some m) => Normal (Some m)
  | Normal None => Normal (models (app s) !! 1%nat)
  end.

(** [AppData.load] for a given [source], in the runtime [r]. *)
Definition load (source : LocalSaveInfo) (r : Runtime) : St :=
  let s := mkSt new_AppData r in
  let s :=
    match lsi_user source with
    | Some u => on_app (set_user (Some u)) s
    | None => s
    end in
  let '(c, s) := new_object s in
  match lsi_chat source with
  | Some chat =>
      store c (set_loaded true chat) (on_app (set_currentChat (Some c)) s)
  | None =>
      on_app (set_currentChat (Some c)) (store c createEmptyChat s)
  end.

(** [AppData.changeUser], up to the fetch of the user's chats. *)
Definition changeUser (user : option User) (s : St) : St :=
  match user with
  | None => publish (on_app (set_user None) (on_app (set_chats []) s))
  | Some u => publish (on_app (set_user (Some u)) s)
  end.

(** The new [Chat] instances made of the fetched chats, in order. *)
Fixpoint new_chats (cs : list Chat) (s : St) : list nat * St :=
  match cs with
  | [] => ([], s)
  | c :: rest =>
      let '(r, s) := new_object s in
      let s := store r c s in
      let '(rs, s) := new_chats rest s in
      (r :: rs, s)
  end.

(** [AppData.changeUser] once the fetch has answered with [fetched]. *)
Definition changeUser_resume (fetched : list Chat) (s : St) : St :=
  let '(rs, s) := new_chats fetched s in
  let s := on_app (set_chats rs) s in
  let s :=
    match currentChat (app s) with
    | None =>
        let '(c, s) := new_object s in
        on_app (set_currentChat (Some c)) (store c createEmptyChat s)
    | Some cur =>
        on_app (fun a =>
          set_chats
            (map (fun r => if loose_eq (id (deref s r)) (id (deref s cur))
                           then cur else r) (chats a)) a) s
    end in
  publish s.

(** ** Further notions used to state properties *)

(** The only timeout that may be pending is the one [_dirtySave] names. *)
Definition single_flush_slot (s : St) : Prop :=
  forall t, is_Some (timers (rt s) !! t) -> _dirtySave (app s) = Some t.

(** The delay [dirty] asks for. *)
Definition flush_delay (saveNow : bool) : Z := if saveNow then 1 else 1500.

(** The chat [_doSave] writes to local storage, and the snapshot it
    writes. *)
Definition chatToSave (s : St) : option nat :=
  match unsavedChat (app s) with
  | Some d => if isSaved s then Some d else currentChat (app s)
  | None => currentChat (app s)
  end.

Definition snapshot (s : St) : LocalSaveInfo :=
  {| lsi_user := user (app s);
     lsi_chat := deref s <$> chatToSave s;
     lsi_version := Some 3 |}.

(** The slot holds the message object [m]. *)
Definition holds (m : MsgObj) (slot : option MsgObj) : Prop :=
  exists x, slot = Some x /\ addr x = addr m.

(** The placeholder message [chat] creates, with identity [a] and id [i]. *)
Definition placeholder (a : nat) (i : string) : MsgObj :=
  {| addr := a;
     val := {| msg_id := i; role := "assistant"; message := Some "...";
               cost_tokens_completion := None; cost_tokens_prompt := None;
               cost_usd := None; finish_reason := None; error := None;
               start_edited := None |} |}.

(** The copy of a message that [onError] makes, with identity [a]. *)
Definition error_copy (a : nat) (old : Message) (ev : string) : MsgObj :=
  {| addr := a;
     val := {| msg_id := msg_id old; role := role old;
               message := message old;
               cost_tokens_completion := cost_tokens_completion old;
               cost_tokens_prompt := cost_tokens_prompt old;
               cost_usd := cost_usd old;
               finish_reason := finish_reason old;
               error := Some ("Websocket error: " ++ ev)%string;
               start_edited := start_edited old |} |}.

(** [draft_state] with two models to choose from. *)
Definition draft_state_with_models : St :=
  on_app (fun a => mkAppData (chats a) (user a) (currentChat a)
                     (unsavedChat a)
                     [mkModel "GPT-3.5" "gpt-3.5-turbo" 4096;
                      mkModel "GPT-4" "gpt-4" 8192]
                     (users a) (busy a) (_dirtySave a)
                     (abortController a) (streamWebSocket a)
                     (publishCallback a)) draft_state.




(** * Properties *)

(** ** [Chat.label] *)





Lemma eqb_empty_false (s : string) : s <> "" <-> negb (String.eqb s "") = true.
Proof.
  destruct (String.eqb_spec s ""); simpl; split; intros; congruence.
Qed.






(** The cases of the specification's own examples. *)
Example label_long_message :
  label chat_with_long_message
  = Normal (string_of_list_ascii (replicate 200 "x"%char)).
Proof. vm_compute. reflexivity. Qed.

Example label_temporary_name :
  label (set_temporary_name (Some "Foo") new_Chat) = Normal "Foo".
Proof. reflexivity. Qed.

Example label_placeholder : label new_Chat = Normal "New Chat".
Proof. reflexivity. Qed.

(** ** [AppData.isSaved] *)

(** C1. [isSaved] is true exactly when a current chat exists, the user is
    set, the chat's id is a non-empty string, the chat's [user_id] is the
    user's id, and the chat is loaded; it is false in every other state. *)
Theorem isSaved_iff (s : St) :
  let eligible :=
    exists c u i,
      currentChat (app s) = Some c /\ user (app s) = Some u /\
      id (deref s c) = Str i /\ i <> "" /\
      user_id (deref s c) = Str (user_ident u) /\
      loaded (deref s c) = true in
  (isSaved s = true <-> eligible) /\ (isSaved s = false <-> ~ eligible).
Proof.
  intros eligible.
  assert (H : isSaved s = true <-> eligible).
  { unfold eligible, isSaved. split.
    - destruct (currentChat (app s)) as [c|]; [|discriminate].
      destruct (user (app s)) as [u|]; [|discriminate].
      destruct (id (deref s c)) as [| |i] eqn:Hid; simpl; try discriminate.
      destruct (String.eqb_spec i ""); simpl; [discriminate|].
      destruct (user_id (deref s c)) as [| |o] eqn:Ho; simpl; try discriminate.
      destruct (String.eqb_spec o (user_ident u)); simpl; [|discriminate].
      destruct (loaded (deref s c)) eqn:Hl; simpl; [|discriminate].
      intros _. exists c, u, i. subst o. repeat split; auto.
    - intros (c & u & i & -> & -> & Hid & Hne & Ho & Hl).
      rewrite Hid, Ho, Hl. simpl.
      apply eqb_empty_false in Hne. rewrite Hne. simpl.
      now rewrite String.eqb_refl. }
  split; [exact H|].
  rewrite <- H. destruct (isSaved s); split; intros; congruence.
Qed.

(** ** [AppData._doSave] *)

(** C2. [_doSave] writes one snapshot under the key "appData", replacing
    whatever was there: it carries the active user, version 3, and the
    stashed draft when the current chat is saved and a draft exists, the
    current chat itself otherwise. *)
Theorem _doSave_snapshot (s : St) :
  exists snap,
    localStorage (rt (_doSave s)) = <["appData" := snap]> (localStorage (rt s)) /\
    localStorage (rt (_doSave s)) !! "appData" = Some snap /\
    lsi_user snap = user (app s) /\
    lsi_version snap = Some 3 /\
    (isSaved s = true -> forall d, unsavedChat (app s) = Some d ->
     lsi_chat snap = Some (deref s d)) /\
    (isSaved s = false \/ unsavedChat (app s) = None ->
     lsi_chat snap = deref s <$> currentChat (app s)).
Proof.
  unfold _doSave.
  set (chatToSave := if isSaved s && _ then _ else _).
  set (snap := {| lsi_user := _; lsi_chat := _; lsi_version := _ |}).
  set (s1 := on_rt _ s).
  exists snap.
  assert (Hls : localStorage
                  (rt (if isSaved s1
                       then match currentChat (app s1) with
                            | Some c =>
                                match label (deref s1 c) with
                                | Normal l =>
                                    emit (HttpPostChat
                                            (deref (store c (set_temporary_name (Some l) (deref s1 c)) s1) c))
                                      (store c (set_temporary_name (Some l) (deref s1 c)) s1)
                                | Throw _ => s1
                                end
                            | None => s1
                            end
                       else s1))
                = <["appData" := snap]> (localStorage (rt s))).
  { destruct (isSaved s1); [|reflexivity].
    destruct (currentChat (app s1)) as [c|]; [|reflexivity].
    destruct (label (deref s1 c)); reflexivity. }
  split; [exact Hls|]. split; [rewrite Hls; apply lookup_insert_eq|].
  split; [reflexivity|]. split; [reflexivity|]. split.
  - intros Hs d Hd. subst snap chatToSave. simpl. rewrite Hs, Hd. reflexivity.
  - intros [Hs|Hu]; subst snap chatToSave; simpl.
    + rewrite Hs. reflexivity.
    + rewrite Hu. now rewrite andb_false_r.
Qed.

Lemma _doSave_snapshot_witness :
  isSaved saved_state_with_draft = true /\
  unsavedChat (app saved_state_with_draft) = Some 1%nat /\
  localStorage (rt (_doSave saved_state_with_draft)) !! "appData"
  = Some {| lsi_user := Some user1; lsi_chat := Some stashed_draft;
            lsi_version := Some 3 |}.
Proof.
  split; [vm_compute; reflexivity|]. split; [reflexivity|].
  destruct (_doSave_snapshot saved_state_with_draft)
    as ([u c v] & _ & -> & Hu & Hv & Hd & _).
  simpl in Hu, Hv, Hd.
  rewrite Hu, Hv, (Hd ltac:(vm_compute; reflexivity) 1%nat eq_refl).
  reflexivity.
Defined.

(** ** [AppData.openChat] with no chat *)

(** In [draft_state] the current chat is not saved; [openChat(null)]
    leaves that draft, with its message, current. *)
Lemma open_none_not_as_specified : ~ open_none_as_specified draft_state.
Proof.
  unfold open_none_as_specified.
  change (isSaved draft_state) with false. simpl.
  intros (c & Hc & Hfresh & _).
  change (currentChat (app (openChat None draft_state))) with (Some 0%nat) in Hc.
  injection Hc as <-. vm_compute in Hfresh. discriminate.
Qed.

(** C3, as the code has it.  When the current chat is saved, [openChat(null)]
    makes the stashed draft current if there is one, and otherwise makes
    current a new chat that is loaded, has a new id and has no messages;
    either way the stash is cleared.  When the current chat is not saved,
    the current chat, the stash and the chats themselves stay as they
    are. *)
Theorem openChat_none (s : St) :
  let s' := openChat None s in
  (isSaved s = true -> forall d, unsavedChat (app s) = Some d ->
   currentChat (app s') = Some d /\ unsavedChat (app s') = None /\
   heap (rt s') = heap (rt s)) /\
  (isSaved s = true -> unsavedChat (app s) = None ->
   let c := next_obj (rt s) in
   currentChat (app s') = Some c /\ unsavedChat (app s') = None /\
   id (deref s' c) = Str (uuids (rt s) (next_uuid (rt s))) /\
   loaded (deref s' c) = true /\
   messages (deref s' c) = [] /\
   (forall r, r <> c -> heap (rt s') !! r = heap (rt s) !! r)) /\
  (isSaved s = false ->
   currentChat (app s') = currentChat (app s) /\
   unsavedChat (app s') = unsavedChat (app s) /\
   heap (rt s') = heap (rt s)).
Proof.
  assert (Hp : forall x, currentChat (app (publish x)) = currentChat (app x) /\
                         unsavedChat (app (publish x)) = unsavedChat (app x) /\
                         heap (rt (publish x)) = heap (rt x)).
  { intros x. unfold publish. destruct (publishCallback (app x)); auto. }
  intros s'. subst s'. unfold openChat. split; [|split].
  - intros Hs d Hd. rewrite Hs, Hd.
    destruct (Hp (on_app (set_unsavedChat None)
                    (on_app (set_currentChat (Some d)) s))) as (-> & -> & ->).
    auto.
  - intros Hs Hd. rewrite Hs, Hd. cbv zeta.
    match goal with |- context [publish ?x] =>
      destruct (Hp x) as (H1 & H2 & H3) end.
    unfold deref. rewrite H1, H2, H3. simpl.
    rewrite lookup_total_insert_eq. simpl.
    repeat split; auto.
    intros r Hr. now rewrite lookup_insert_ne.
  - intros Hs. rewrite Hs. destruct (Hp s) as (-> & -> & ->). auto.
Qed.

Lemma openChat_none_witness :
  isSaved saved_state_with_draft = true /\
  unsavedChat (app saved_state_with_draft) = Some 1%nat /\
  currentChat (app (openChat None saved_state_with_draft)) = Some 1%nat /\
  unsavedChat (app (openChat None saved_state_with_draft)) = None.
Proof.
  split; [vm_compute; reflexivity|]. split; [reflexivity|].
  destruct (proj1 (openChat_none saved_state_with_draft)
              ltac:(vm_compute; reflexivity) 1%nat eq_refl) as (H1 & H2 & _).
  split; assumption.
Defined.

(** ** [AppData.dirty] and [AppData.cancel] *)

(** [dirty] keeps the handle of the timeout it sets in [_dirtySave] and
    changes no other field of the object. *)
Lemma dirty_app (saveNow : bool) (s : St) :
  app (dirty saveNow s) = set_dirtySave (Some (next_timer (rt s))) (app s).
Proof.
  unfold dirty. destruct (_dirtySave (app s)); reflexivity.
Qed.

Lemma dirty_timers (saveNow : bool) (s : St) :
  timers (rt (dirty saveNow s)) !! next_timer (rt s)
  = Some (if saveNow then 1 else 1500).
Proof.
  unfold dirty. destruct (_dirtySave (app s)); simpl; apply lookup_insert_eq.
Qed.

Lemma dirty_rest (saveNow : bool) (s : St) :
  heap (rt (dirty saveNow s)) = heap (rt s) /\
  log (rt (dirty saveNow s)) = log (rt s) /\
  sockets (rt (dirty saveNow s)) = sockets (rt s) /\
  localStorage (rt (dirty saveNow s)) = localStorage (rt s) /\
  next_obj (rt (dirty saveNow s)) = next_obj (rt s).
Proof.
  unfold dirty. destruct (_dirtySave (app s)); simpl; auto.
Qed.

(** [dirty] replaces a pending flush: the timeout it found in
    [_dirtySave] is no longer pending. *)
Lemma dirty_replaces (saveNow : bool) (s : St) (t : nat) :
  _dirtySave (app s) = Some t -> t <> next_timer (rt s) ->
  timers (rt (dirty saveNow s)) !! t = None.
Proof.
  intros Ht Hne. unfold dirty. rewrite Ht. simpl.
  rewrite lookup_insert_ne by congruence. apply lookup_delete_eq.
Qed.

Lemma cancel_app (s : St) :
  app (cancel s)
  = set_dirtySave (Some (next_timer (rt s)))
      (set_busy false
         (set_streamWebSocket None (set_abortController None (app s)))).
Proof.
  unfold cancel. rewrite dirty_app.
  destruct s as [[? ? ? ? ? ? ? ? [ac|] [ws|] ?] r]; reflexivity.
Qed.

Lemma cancel_heap (s : St) : heap (rt (cancel s)) = heap (rt s).
Proof.
  unfold cancel. rewrite (proj1 (dirty_rest _ _)).
  destruct s as [[? ? ? ? ? ? ? ? [ac|] [ws|] ?] r]; reflexivity.
Qed.

Lemma cancel_sockets (s : St) : sockets (rt (cancel s)) = sockets (rt s).
Proof.
  unfold cancel. rewrite (proj1 (proj2 (proj2 (dirty_rest _ _)))).
  destruct s as [[? ? ? ? ? ? ? ? [ac|] [ws|] ?] r]; reflexivity.
Qed.

Lemma cancel_localStorage (s : St) :
  localStorage (rt (cancel s)) = localStorage (rt s).
Proof.
  unfold cancel. rewrite (proj1 (proj2 (proj2 (proj2 (dirty_rest _ _))))).
  destruct s as [[? ? ? ? ? ? ? ? [ac|] [ws|] ?] r]; reflexivity.
Qed.

(** The calls [cancel] makes: [abort] on the controller and [close] on
    the socket, each only when the handle is set. *)
Lemma cancel_log (s : St) :
  log (rt (cancel s))
  = (match streamWebSocket (app s) with
     | Some ws => [WsClosed ws] | None => [] end
     ++ match abortController (app s) with
        | Some ac => [Aborted ac] | None => [] end
     ++ log (rt s))%list.
Proof.
  unfold cancel. rewrite (proj1 (proj2 (dirty_rest _ _))).
  destruct s as [[? ? ? ? ? ? ? ? [ac|] [ws|] ?] r]; reflexivity.
Qed.

Lemma cancel_timer (s : St) :
  timers (rt (cancel s)) !! next_timer (rt s) = Some 1500.
Proof.
  unfold cancel.
  match goal with |- context [dirty false ?x] =>
    replace (next_timer (rt s)) with (next_timer (rt x));
    [apply (dirty_timers false x)|] end.
  destruct s as [[? ? ? ? ? ? ? ? [ac|] [ws|] ?] r]; reflexivity.
Qed.

(** C7. [cancel] always leaves [busy] false, both transport handles
    cleared and a flush scheduled (a pending timeout of 1500 ms held in
    [_dirtySave]); with no exchange outstanding it calls nothing on the
    transport and leaves the chats and the session's other fields as they
    were. *)
Theorem cancel_always (s : St) :
  let s' := cancel s in
  busy (app s') = false /\
  abortController (app s') = None /\
  streamWebSocket (app s') = None /\
  (exists t, _dirtySave (app s') = Some t /\ timers (rt s') !! t = Some 1500) /\
  (abortController (app s) = None -> streamWebSocket (app s) = None ->
   log (rt s') = log (rt s) /\
   heap (rt s') = heap (rt s) /\
   sockets (rt s') = sockets (rt s) /\
   localStorage (rt s') = localStorage (rt s) /\
   currentChat (app s') = currentChat (app s) /\
   unsavedChat (app s') = unsavedChat (app s) /\
   chats (app s') = chats (app s) /\
   user (app s') = user (app s)).
Proof.
  intros s'. subst s'.
  assert (Happ := cancel_app s).
  repeat (split; [now rewrite Happ|]). split.
  - exists (next_timer (rt s)). split; [now rewrite Happ | apply cancel_timer].
  - intros Ha Hw.
    rewrite cancel_log, cancel_heap, cancel_sockets, cancel_localStorage.
    rewrite Happ, Ha, Hw. simpl. auto 10.
Qed.

Lemma cancel_always_witness :
  abortController (app draft_state) = None /\
  streamWebSocket (app draft_state) = None /\
  busy (app (cancel draft_state)) = false /\
  log (rt (cancel draft_state)) = log (rt draft_state).
Proof.
  split; [reflexivity|]. split; [reflexivity|].
  destruct (cancel_always draft_state) as (Hb & _ & _ & _ & Hidle).
  split; [exact Hb|]. exact (proj1 (Hidle eq_refl eq_refl)).
Defined.

(** ** Edits of the message list *)

(** After [insertMessage] and after [delete], a timeout of 1500 ms is
    pending and [_dirtySave] holds its handle. *)
Lemma insertMessage_schedules (oldMessage : option MsgObj) (newMessage : MsgObj)
    (s : St) (c : nat) :
  currentChat (app s) = Some c ->
  let s' := insertMessage oldMessage newMessage s in
  _dirtySave (app s') = Some (next_timer (rt s)) /\
  timers (rt s') !! next_timer (rt s) = Some 1500.
Proof.
  intros Hc s'. subst s'. unfold insertMessage. rewrite Hc.
  rewrite dirty_app. split; [reflexivity|].
  match goal with |- context [dirty false ?x] =>
    exact (dirty_timers false x) end.
Qed.

Lemma delete_message_schedules (msg : MsgObj) (s : St) (c : nat) :
  currentChat (app s) = Some c ->
  let s' := delete_message msg s in
  exists t, _dirtySave (app s') = Some t /\ timers (rt s') !! t = Some 1500.
Proof.
  intros Hc s'. subst s'. unfold delete_message. rewrite Hc.
  match goal with |- context [dirty false ?x] =>
    exists (next_timer (rt x)) end.
  rewrite dirty_app. split; [reflexivity|]. apply (dirty_timers false).
Qed.

(** [truncate] never touches the timers or [_dirtySave]. *)
Lemma truncate_schedules_nothing (msg : MsgObj) (s : St) :
  _dirtySave (app (truncate msg s)) = _dirtySave (app s) /\
  timers (rt (truncate msg s)) = timers (rt s) /\
  next_timer (rt (truncate msg s)) = next_timer (rt s).
Proof.
  unfold truncate. destruct (currentChat (app s)) as [c|]; [|auto].
  destruct (0 <=? indexOf msg (messages (deref s c))); auto.
Qed.

(** C5 does not hold of [truncate].  In [draft_state], where no flush is
    pending, [truncate] of the only message empties the message list and
    leaves no flush scheduled, while [insertMessage] and [delete] in the
    same state leave one pending. *)
Theorem truncate_leaves_state_clean :
  let s' := truncate first_message draft_state in
  messages (deref s' 0%nat) = [] /\
  _dirtySave (app s') = None /\
  timers (rt s') = ∅ /\
  _dirtySave (app (insertMessage None inserted_message draft_state)) = Some 0%nat /\
  _dirtySave (app (delete_message first_message draft_state)) = Some 1%nat.
Proof.
  cbv zeta. split; [vm_compute; reflexivity|].
  destruct (truncate_schedules_nothing first_message draft_state) as (-> & -> & _).
  repeat split; vm_compute; reflexivity.
Qed.

(** ** The streaming exchange *)

Lemma chat_without_current prompt model determinism maxTokens api_key
    messages_ message_ (s : St) :
  currentChat (app s) = None ->
  chat prompt model determinism maxTokens api_key messages_ message_ s
  = on_app (set_busy true) (cancel s).
Proof.
  intros Hc. unfold chat.
  change (currentChat (app (on_app (set_busy true) (cancel s))))
    with (currentChat (app (cancel s))).
  rewrite cancel_app. simpl. now rewrite Hc.
Qed.

(** C10. With no current chat, [chat] builds no socket, sends no frame
    and changes no chat; the only calls it makes are those of [cancel];
    and it returns with [busy] set to true. *)
Theorem chat_without_current_stays_busy prompt model determinism maxTokens
    api_key messages_ message_ (s : St) :
  currentChat (app s) = None ->
  let s' := chat prompt model determinism maxTokens api_key messages_
              message_ s in
  busy (app s') = true /\
  streamWebSocket (app s') = None /\
  sockets (rt s') = sockets (rt s) /\
  next_ws (rt s') = next_ws (rt s) /\
  heap (rt s') = heap (rt s) /\
  (forall e, e ∈ log (rt s') ->
     e ∈ log (rt s) \/ (exists ac, e = Aborted ac) \/ (exists ws, e = WsClosed ws)).
Proof.
  intros Hc s'. subst s'. rewrite chat_without_current by exact Hc.
  change (rt (on_app (set_busy true) (cancel s))) with (rt (cancel s)).
  change (app (on_app (set_busy true) (cancel s)))
    with (set_busy true (app (cancel s))).
  rewrite cancel_app, cancel_sockets, cancel_heap, cancel_log.
  split; [reflexivity|]. split; [reflexivity|]. split; [reflexivity|].
  split; [destruct s as [[? ? ? ? ? ? ? [t|] [ac|] [ws|] ?] r]; reflexivity|].
  split; [reflexivity|].
  intros e He. rewrite !elem_of_app in He.
  destruct He as [He|[He|He]]; [| |now left].
  - destruct (streamWebSocket (app s)) as [ws|]; [|inversion He].
    apply list_elem_of_singleton in He. right; right; eauto.
  - destruct (abortController (app s)) as [ac|]; [|inversion He].
    apply list_elem_of_singleton in He. right; left; eauto.
Qed.

Lemma chat_without_current_witness :
  currentChat (app (mkSt new_AppData empty_runtime)) = None /\
  busy (app (chat "" "gpt-4" 50 1000 "" None None
               (mkSt new_AppData empty_runtime))) = true.
Proof.
  split; [reflexivity|].
  apply (chat_without_current_stays_busy "" "gpt-4" 50%float 1000 "" None None
           (mkSt new_AppData empty_runtime) eq_refl).
Defined.

(** Whatever the array holds when a frame arrives, [onMessage] writes the
    frame at the index captured when the request was made. *)
Lemma onMessage_writes_at_captured_index (ws : nat) (data : Message) (s : St)
    (ex : Exchange) :
  sockets (rt s) !! ws = Some ex ->
  messages (deref (onMessage ws data s) (ex_chat ex))
  = array_set (ex_index ex) (mkMsgObj (next_obj (rt s)) data)
      (messages (deref s (ex_chat ex))).
Proof.
  intros Hex. unfold onMessage. rewrite Hex. cbv zeta.
  unfold new_object. cbv iota beta.
  match goal with |- context [publish ?x] =>
    replace (deref (publish x) (ex_chat ex)) with (deref x (ex_chat ex))
      by (unfold publish; destruct (publishCallback (app x)); reflexivity)
  end.
  unfold deref. simpl. now rewrite lookup_total_insert_eq.
Qed.

(** C4 does not hold of [onMessage].  A reply is streaming into the placeholder
    at index 1 when a message is inserted in front of it; the next frame
    is written at the captured index 1, where it replaces the user's
    first message, and the placeholder it was meant for stays.  Looking
    the target up by id would have replaced the placeholder. *)
Theorem onMessage_uses_captured_index :
  let before := messages (deref streaming_then_insert 0%nat) in
  let frame := Some (mkMsgObj 3 reply_frame) in
  let placeholder :=
    Some (mkMsgObj 2
            {| msg_id := "a"; role := "assistant"; message := Some "...";
               cost_tokens_completion := None; cost_tokens_prompt := None;
               cost_usd := None; finish_reason := None; error := None;
               start_edited := None |}) in
  before = [Some inserted_message; Some first_message; placeholder] /\
  messages (deref (onMessage 0 reply_frame streaming_then_insert) 0%nat)
  = [Some inserted_message; frame; placeholder] /\
  messages (deref (onMessage_by_id 0 reply_frame streaming_then_insert) 0%nat)
  = [Some inserted_message; Some first_message; frame].
Proof.
  cbv zeta. repeat split; vm_compute; reflexivity.
Qed.

(** *** The temperature of the request *)

Lemma checked_on_0_100 (P : Z -> bool) :
  forallb P (map Z.of_nat (seq 0 101)) = true ->
  forall d, 0 <= d <= 100 -> P d = true.
Proof.
  intros H d Hd. rewrite forallb_forall in H. apply H.
  apply in_map_iff. exists (Z.to_nat d). split; [lia|].
  apply in_seq. lia.
Qed.

Lemma temperature_range (d : Z) :
  0 <= d <= 100 -> temperature_in_range d = true.
Proof. apply checked_on_0_100. vm_compute. reflexivity. Qed.

Lemma temperature_rounding (d : Z) :
  0 <= d <= 100 -> temperature_nearest d = true.
Proof. apply checked_on_0_100. vm_compute. reflexivity. Qed.

(** C9. For an integer determinism [d] from 0 to 100 and a current chat,
    the frame sent when the socket built by [chat] opens carries the
    temperature [(100 - d) / 100 * 2], computed on binary64 numbers; that
    number lies between 0 and 2, and it is 0 for [d = 100], 1 for
    [d = 50] and 2 for [d = 0]. *)
Theorem chat_sends_temperature prompt model (d : Z) maxTokens api_key
    messages_ message_ (s : St) (c : nat) :
  currentChat (app s) = Some c ->
  0 <= d <= 100 ->
  let s1 := chat prompt model (number_of_Z d) maxTokens api_key messages_
              message_ s in
  (exists ws frame,
     streamWebSocket (app s1) = Some ws /\
     log (rt (onOpen ws s1)) = WsSent ws frame :: log (rt s1) /\
     req_temperature frame = ((100 - number_of_Z d) / 100 * 2)%float /\
     (0 <=? req_temperature frame)%float = true /\
     (req_temperature frame <=? 2)%float = true) /\
  temperature (number_of_Z 100) = 0%float /\
  temperature (number_of_Z 50) = 1%float /\
  temperature (number_of_Z 0) = 2%float.
Proof.
  intros Hc Hd s1. split; [|repeat split; reflexivity].
  subst s1. unfold chat.
  change (currentChat (app (on_app (set_busy true) (cancel s))))
    with (currentChat (app (cancel s))).
  rewrite cancel_app. simpl currentChat. rewrite Hc.
  pose proof (temperature_range d Hd) as Hr.
  unfold temperature_in_range in Hr. apply andb_true_iff in Hr.
  destruct message_ as [m|]; cbn -[cancel temperature number_of_Z].
  all: eexists; eexists; split; [reflexivity|].
  all: unfold onOpen; cbn -[cancel temperature number_of_Z].
  all: rewrite lookup_insert_eq.
  all: split; [reflexivity|]; split; [reflexivity|]; exact Hr.
Qed.

Lemma chat_sends_temperature_witness :
  currentChat (app draft_state) = Some 0%nat /\ 0 <= 99 <= 100 /\
  exists ws frame,
    streamWebSocket (app (chat "" "gpt-4" (number_of_Z 99) 1000 "" None None
                            draft_state)) = Some ws /\
    log (rt (onOpen ws (chat "" "gpt-4" (number_of_Z 99) 1000 "" None None
                          draft_state)))
    = WsSent ws frame
        :: log (rt (chat "" "gpt-4" (number_of_Z 99) 1000 "" None None
                      draft_state)) /\
    req_temperature frame = ((100 - number_of_Z 99) / 100 * 2)%float.
Proof.
  split; [reflexivity|]. split; [lia|].
  destruct (chat_sends_temperature "" "gpt-4" 99 1000 "" None None
              draft_state 0%nat eq_refl ltac:(lia))
    as ((ws & frame & H1 & H2 & H3 & _) & _).
  exists ws, frame. repeat split; assumption.
Defined.

(** ** [AppData.upgradeStoredData] *)

Section MigrationProperties.

Variable ToNumber : json -> option Z.

Lemma loose_eq_num_1_not_2 (v : json) :
  loose_eq_num ToNumber v 1 = true -> loose_eq_num ToNumber v 2 = false.
Proof.
  unfold loose_eq_num.
  destruct v as [| |[|]|n| | | |]; try discriminate; try reflexivity;
    try (destruct (ToNumber _) as [n|]; [|discriminate]);
    intros H; apply Z.eqb_eq in H; subst; reflexivity.
Qed.

Lemma set_prop_same (k : string) (v : json) (props : list (string * json)) :
  get_prop k props = v -> v <> JUndefined -> set_prop k v props = props.
Proof.
  intros Hg Hv. induction props as [|[k' v'] rest IH]; simpl in *.
  - congruence.
  - destruct (String.eqb k' k); [now subst|]. now rewrite IH.
Qed.

Lemma get_prop_set_prop (k : string) (v : json) (props : list (string * json)) :
  get_prop k (set_prop k v props) = v.
Proof.
  induction props as [|[k' v'] rest IH]; simpl.
  - now rewrite String.eqb_refl.
  - destruct (String.eqb k' k) eqn:E; simpl; now rewrite E.
Qed.

Lemma upgrade_wrapped (chat : json) :
  upgradeStoredData ToNumber (wrapped chat) = Normal (wrapped chat).
Proof. reflexivity. Qed.

(** The version-1 branch either leaves the object as it was, still at
    version 1, or leaves it at version 2. *)
Lemma upgrade_v1_cases (props : list (string * json)) (r : json) :
  upgrade_v1 props = Normal r ->
  r = JObj props \/
  exists props', r = JObj props' /\
                 get_prop "serializationVersion" props' = JNum 2.
Proof.
  unfold upgrade_v1.
  destruct (get_prop "messages" props) as [| | | | |chars|items|] eqn:Hm;
    try discriminate.
  - destruct (String.eqb chars ""); intros [= <-]; [now left|].
    right. eexists. split; [reflexivity | apply get_prop_set_prop].
  - destruct (upgrade_messages items) as [items'|] eqn:Hi; [|discriminate].
    destruct items as [|m items]; intros [= <-].
    + left. simpl in Hi. injection Hi as <-.
      now rewrite set_prop_same.
    + right. eexists. split; [reflexivity | apply get_prop_set_prop].
Qed.

(** The migration returns its argument or a version-3 wrapping. *)
Lemma upgradeStoredData_cases (source r : json) :
  upgradeStoredData ToNumber source = Normal r ->
  r = source \/ exists chat, r = wrapped chat.
Proof.
  unfold upgradeStoredData.
  destruct (get source "serializationVersion") as [v|] eqn:Hv; [|discriminate].
  destruct (loose_eq_num ToNumber v 1) eqn:H1.
  - destruct source as [| | | | | | |props]; simpl in Hv; try discriminate;
      injection Hv as <-; try (simpl in H1; discriminate).
    destruct (upgrade_v1 props) as [r1|] eqn:Hu; [|discriminate].
    destruct (upgrade_v1_cases _ _ Hu) as [->|(props' & -> & Hp)]; simpl.
    + rewrite (loose_eq_num_1_not_2 _ H1). intros [= <-]. now left.
    + rewrite Hp. simpl. intros [= <-]. right. now eexists.
  - rewrite Hv. destruct (loose_eq_num ToNumber v 2); intros [= <-].
    + right. now eexists.
    + now left.
Qed.

(** Applying the migration to its own result changes nothing. *)
Lemma upgradeStoredData_idempotent (source r : json) :
  upgradeStoredData ToNumber source = Normal r ->
  upgradeStoredData ToNumber r = Normal r.
Proof.
  intros H. destruct (upgradeStoredData_cases _ _ H) as [->|(chat & ->)].
  - exact H.
  - apply upgrade_wrapped.
Qed.

(** A version-1 chat whose [messages] array is not empty comes out
    wrapped at version 3. *)
Lemma upgradeStoredData_v1_nonempty props m items items' :
  loose_eq_num ToNumber (get_prop "serializationVersion" props) 1 = true ->
  get_prop "messages" props = JArr (m :: items) ->
  upgrade_messages (m :: items) = Normal items' ->
  upgradeStoredData ToNumber (JObj props)
  = Normal (wrapped (JObj (set_prop "serializationVersion" (JNum 2)
                             (set_prop "messages" (JArr items') props)))).
Proof.
  intros H1 Hm Hi. unfold upgradeStoredData. cbn [get]. rewrite H1.
  unfold upgrade_v1. rewrite Hm, Hi. cbn [get].
  now rewrite get_prop_set_prop.
Qed.

(** C6 does not hold of a chat without messages.  Such a version-1 chat is
    returned as it is: still at version 1 and not wrapped, also when the
    migration is applied again; the same chat with one message comes out
    wrapped at version 3, with the token counter renamed. *)
Theorem upgradeStoredData_skips_empty_chat :
  upgradeStoredData ToNumber v1_empty_chat = Normal v1_empty_chat /\
  get v1_empty_chat "serializationVersion" = Normal (JNum 1) /\
  get v1_empty_chat "chat" = Normal JUndefined /\
  upgradeStoredData ToNumber v1_chat
  = Normal (wrapped
      (JObj [("id", JStr "c1"); ("name", JStr "Notes");
             ("messages",
              JArr [JObj [("id", JStr "m1"); ("role", JStr "assistant");
                          ("message", JStr "hello");
                          ("cost_tokens", JUndefined);
                          ("cost_tokens_completion", JNum 7)]]);
             ("serializationVersion", JNum 2)])).
Proof. repeat split; reflexivity. Qed.

End MigrationProperties.


(** * Further properties of the code *)

(** ** Debounced persistence *)

Lemma dirty_single (saveNow : bool) (s : St) :
  single_flush_slot s ->
  timers (rt (dirty saveNow s))
  = {[ next_timer (rt s) := flush_delay saveNow ]}.
Proof.
  intros Hslot. unfold dirty, flush_delay.
  destruct (_dirtySave (app s)) as [t0|] eqn:Hd; simpl;
    apply map_eq; intros i;
    destruct (decide (i = next_timer (rt s))) as [->|Hne];
    rewrite ?lookup_insert_eq, ?lookup_singleton_eq; try reflexivity;
    rewrite lookup_insert_ne, lookup_singleton_ne by congruence.
  - destruct (decide (i = t0)) as [->|Hne0]; [apply lookup_delete_eq|].
    rewrite lookup_delete_ne by congruence.
    destruct (timers (rt s) !! i) eqn:Hi; [|reflexivity].
    specialize (Hslot i). rewrite Hi, Hd in Hslot.
    specialize (Hslot (mk_is_Some _ _ eq_refl)). congruence.
  - destruct (timers (rt s) !! i) eqn:Hi; [|reflexivity].
    specialize (Hslot i). rewrite Hi, Hd in Hslot.
    specialize (Hslot (mk_is_Some _ _ eq_refl)). congruence.
Qed.

Lemma dirty_next_timer (saveNow : bool) (s : St) :
  next_timer (rt (dirty saveNow s)) = S (next_timer (rt s)).
Proof. unfold dirty. destruct (_dirtySave (app s)); reflexivity. Qed.

Lemma dirty_keeps_single_slot (saveNow : bool) (s : St) :
  single_flush_slot s -> single_flush_slot (dirty saveNow s).
Proof.
  intros Hslot t [d Ht]. rewrite dirty_single in Ht by exact Hslot.
  rewrite dirty_app. simpl.
  apply lookup_singleton_Some in Ht. destruct Ht as [-> _]. reflexivity.
Qed.

(** Any number of [dirty] calls in a row leaves exactly one timeout
    pending: the one of the last call. *)
Theorem dirty_coalesces (n : nat) (saveNow : bool) (s : St) :
  single_flush_slot s ->
  let s' := Nat.iter (S n) (dirty saveNow) s in
  timers (rt s') = {[ (next_timer (rt s) + n)%nat := flush_delay saveNow ]} /\
  _dirtySave (app s') = Some (next_timer (rt s) + n)%nat.
Proof.
  intros Hslot. cbv zeta.
  assert (H : forall k,
             single_flush_slot (Nat.iter k (dirty saveNow) s) /\
             next_timer (rt (Nat.iter k (dirty saveNow) s))
             = (next_timer (rt s) + k)%nat).
  { induction k as [|k [IH1 IH2]].
    - split; [exact Hslot | simpl; lia].
    - rewrite Nat.iter_succ.
      split; [now apply dirty_keeps_single_slot|].
      rewrite dirty_next_timer, IH2. lia. }
  destruct (H n) as [H1 H2]. rewrite Nat.iter_succ.
  rewrite dirty_single by exact H1. rewrite dirty_app, H2. auto.
Qed.

Lemma dirty_coalesces_witness :
  single_flush_slot draft_state /\
  timers (rt (dirty false (dirty false (dirty false draft_state))))
  = {[ 2%nat := 1500 ]}.
Proof.
  assert (H : single_flush_slot draft_state).
  { intros t [d Ht]. vm_compute in Ht. discriminate. }
  split; [exact H|].
  exact (proj1 (dirty_coalesces 2 false draft_state H)).
Defined.

(** What [_doSave] leaves in local storage: the snapshot under "appData"
    and every other key as it was. *)
Lemma _doSave_localStorage (s : St) :
  localStorage (rt (_doSave s))
  = <["appData" := snapshot s]> (localStorage (rt s)).
Proof.
  unfold _doSave.
  set (cts := if isSaved s && _ then _ else _).
  assert (Hc : cts = chatToSave s).
  { subst cts. unfold chatToSave.
    destruct (unsavedChat (app s)), (isSaved s); reflexivity. }
  rewrite Hc. fold (snapshot s).
  set (s1 := on_rt _ s).
  destruct (isSaved s1); [|reflexivity].
  destruct (currentChat (app s1)) as [c|]; [|reflexivity].
  destruct (label (deref s1 c)); reflexivity.
Qed.

Lemma _doSave_timers (s : St) :
  timers (rt (_doSave s)) = timers (rt s) /\
  _dirtySave (app (_doSave s)) = _dirtySave (app s).
Proof.
  unfold _doSave.
  set (s1 := on_rt _ s).
  destruct (isSaved s1); [|auto].
  destruct (currentChat (app s1)) as [c|]; [|auto].
  destruct (label (deref s1 c)); auto.
Qed.

(** When the timeout set by [dirty] fires, the snapshot of the state is
    written under "appData" and the timeout is no longer pending, while
    [_dirtySave] still holds its handle. *)
Theorem flush_when_timer_fires (saveNow : bool) (s : St) :
  let t := next_timer (rt s) in
  let s' := timer_fires t (dirty saveNow s) in
  localStorage (rt s') !! "appData" = Some (snapshot s) /\
  timers (rt s') !! t = None /\
  _dirtySave (app s') = Some t.
Proof.
  cbv zeta. unfold timer_fires. rewrite dirty_timers.
  set (s1 := clearTimeout _ _).
  destruct (_doSave_timers s1) as [Ht Hd].
  rewrite _doSave_localStorage, Ht, Hd, lookup_insert_eq.
  assert (Hs : snapshot s1 = snapshot s).
  { subst s1. unfold snapshot, chatToSave, isSaved, deref, dirty.
    destruct (_dirtySave (app s)); reflexivity. }
  rewrite Hs. split; [reflexivity|]. subst s1. split.
  - apply lookup_delete_eq.
  - change (_dirtySave (app (dirty saveNow s)) = Some (next_timer (rt s))).
    now rewrite dirty_app.
Qed.

(** A timeout that a later [dirty] replaced does nothing when its time
    comes. *)
Theorem replaced_timer_is_dead (saveNow : bool) (s : St) (t : nat) :
  _dirtySave (app s) = Some t ->
  t <> next_timer (rt s) ->
  timer_fires t (dirty saveNow s) = dirty saveNow s.
Proof.
  intros Ht Hne. unfold timer_fires.
  now rewrite (dirty_replaces saveNow s t Ht Hne).
Qed.

Lemma replaced_timer_is_dead_witness :
  _dirtySave (app (dirty false draft_state)) = Some 0%nat /\
  0%nat <> next_timer (rt (dirty false draft_state)) /\
  timer_fires 0 (dirty false (dirty false draft_state))
  = dirty false (dirty false draft_state).
Proof.
  split; [reflexivity|]. split; [vm_compute; discriminate|].
  apply (replaced_timer_is_dead false (dirty false draft_state) 0%nat).
  - reflexivity.
  - vm_compute. discriminate.
Defined.

(** ** Edits of the message list, continued *)

Lemma splice_inside {A : Type} (i d : nat) (items arr : list A) :
  (i + d <= length arr)%nat ->
  splice (Z.of_nat i) (Z.of_nat d) items arr
  = (take i arr ++ items ++ drop (i + d) arr)%list.
Proof.
  intros H. unfold splice.
  destruct (Z.ltb_spec (Z.of_nat i) 0); [lia|].
  rewrite Z.min_l by lia. rewrite Z.max_l by lia. rewrite Z.min_l by lia.
  rewrite <- Nat2Z.inj_add, !Nat2Z.id. reflexivity.
Qed.

Lemma indexOf_from_spec (m : MsgObj) (arr : list (option MsgObj)) (k : Z) :
  0 <= k ->
  (indexOf_from k m arr = -1 /\ Forall (fun slot => ~ holds m slot) arr) \/
  (exists p : nat,
     indexOf_from k m arr = k + Z.of_nat p /\ (p < length arr)%nat /\
     (exists slot, arr !! p = Some slot /\ holds m slot) /\
     Forall (fun slot => ~ holds m slot) (take p arr)).
Proof.
  revert k. induction arr as [|slot arr IH]; intros k Hk; simpl.
  - left. split; [reflexivity | constructor].
  - assert (Hstep : ~ holds m slot ->
              (indexOf_from (k + 1) m arr = -1 /\
               Forall (fun slot => ~ holds m slot) (slot :: arr)) \/
              (exists p : nat,
                 indexOf_from (k + 1) m arr = k + Z.of_nat p /\
                 (p < S (length arr))%nat /\
                 (exists slot', (slot :: arr) !! p = Some slot' /\ holds m slot') /\
                 Forall (fun slot => ~ holds m slot) (take p (slot :: arr)))).
    { intros Hn. destruct (IH (k + 1) ltac:(lia)) as [[H1 H2]|(p & H1 & H2 & H3 & H4)].
      - left. split; [exact H1 | now constructor].
      - right. exists (S p). split; [lia|]. split; [lia|].
        split; [exact H3 | now constructor]. }
    destruct slot as [x|].
    + destruct (Nat.eqb_spec (addr x) (addr m)) as [He|Hne].
      * right. exists 0%nat. split; [lia|]. split; [simpl; lia|].
        split; [|constructor]. exists (Some x). split; [reflexivity|].
        now exists x.
      * apply Hstep. intros (y & [= <-] & Hy). contradiction.
    + apply Hstep. intros (y & Hy & _). discriminate.
Qed.

Lemma indexOf_spec (m : MsgObj) (arr : list (option MsgObj)) :
  (indexOf m arr = -1 /\ Forall (fun slot => ~ holds m slot) arr) \/
  (exists p : nat,
     indexOf m arr = Z.of_nat p /\ (p < length arr)%nat /\
     (exists slot, arr !! p = Some slot /\ holds m slot) /\
     Forall (fun slot => ~ holds m slot) (take p arr)).
Proof. apply (indexOf_from_spec m arr 0). lia. Qed.

Lemma messages_update_messages (c : nat) f (s : St) :
  messages (deref (update_messages c f s) c) = f (messages (deref s c)).
Proof.
  unfold update_messages, deref, store. simpl.
  now rewrite lookup_total_insert_eq.
Qed.

Lemma deref_dirty (saveNow : bool) (s : St) (c : nat) :
  deref (dirty saveNow s) c = deref s c.
Proof. unfold deref. now rewrite (proj1 (dirty_rest saveNow s)). Qed.

Lemma deref_cancel (s : St) (c : nat) : deref (cancel s) c = deref s c.
Proof. unfold deref. now rewrite cancel_heap. Qed.

(** [insertMessage] puts the new message directly after the first
    occurrence of [oldMessage], and at the front when [oldMessage] is
    absent from the list or not given; nothing else in the list moves. *)
Theorem insertMessage_position (oldMessage : option MsgObj)
    (newMessage : MsgObj) (s : St) (c : nat) :
  currentChat (app s) = Some c ->
  let ms := messages (deref s c) in
  let ms' := messages (deref (insertMessage oldMessage newMessage s) c) in
  (forall old p, oldMessage = Some old -> indexOf old ms = Z.of_nat p ->
     ms' = (take (S p) ms ++ Some newMessage :: drop (S p) ms)%list) /\
  ((oldMessage = None \/ exists old, oldMessage = Some old /\ indexOf old ms = -1) ->
     ms' = Some newMessage :: ms).
Proof.
  intros Hc. cbv zeta. unfold insertMessage. rewrite Hc.
  rewrite deref_dirty, messages_update_messages. split.
  - intros old p -> Hp.
    destruct (indexOf_spec old (messages (deref s c)))
      as [[H _]|(q & Hq & Hlt & _)]; [lia|].
    assert (q = p) by lia. subst q. rewrite Hp.
    change (Z.of_nat p + 1) with (Z.of_nat p + Z.of_nat 1).
    rewrite <- Nat2Z.inj_add. change 0 with (Z.of_nat 0).
    rewrite splice_inside by lia.
    replace (p + 1)%nat with (S p) by lia.
    now replace (S p + 0)%nat with (S p) by lia.
  - intros [->|(old & -> & ->)]; change (-1 + 1) with 0;
      change 0 with (Z.of_nat 0); rewrite splice_inside by (simpl; lia);
      reflexivity.
Qed.

Lemma insertMessage_position_witness :
  currentChat (app draft_state) = Some 0%nat /\
  indexOf first_message (messages (deref draft_state 0%nat)) = Z.of_nat 0 /\
  messages (deref (insertMessage (Some first_message) inserted_message
                     draft_state) 0%nat)
  = [Some first_message; Some inserted_message].
Proof.
  split; [reflexivity|]. split; [vm_compute; reflexivity|].
  rewrite (proj1 (insertMessage_position (Some first_message)
                    inserted_message draft_state 0%nat eq_refl)
             first_message 0%nat eq_refl ltac:(vm_compute; reflexivity)).
  vm_compute. reflexivity.
Defined.

(** [delete] takes the first occurrence of the message out of the list
    and leaves the list as it is when the message is not in it. *)
Theorem delete_message_removes (msg : MsgObj) (s : St) (c : nat) :
  currentChat (app s) = Some c ->
  let ms := messages (deref s c) in
  let ms' := messages (deref (delete_message msg s) c) in
  (forall p, indexOf msg ms = Z.of_nat p ->
     ms' = (take p ms ++ drop (S p) ms)%list /\ length ms = S (length ms')) /\
  (indexOf msg ms = -1 -> ms' = ms).
Proof.
  intros Hc. cbv zeta. unfold delete_message. rewrite Hc.
  rewrite deref_dirty, deref_cancel.
  destruct (indexOf_spec msg (messages (deref s c)))
    as [[H _]|(q & Hq & Hlt & _)].
  - rewrite H. simpl. rewrite deref_cancel.
    split; [intros p Hp; lia | reflexivity].
  - rewrite Hq. destruct (Z.leb_spec 0 (Z.of_nat q)); [|lia].
    rewrite messages_update_messages, deref_cancel.
    split; [|intros; lia]. intros p Hp. assert (p = q) by lia. subst p.
    change 1 with (Z.of_nat 1). rewrite splice_inside by lia.
    replace (q + 1)%nat with (S q) by lia. simpl. split; [reflexivity|].
    rewrite length_app, length_take, length_drop. lia.
Qed.

Lemma delete_message_removes_witness :
  currentChat (app draft_state) = Some 0%nat /\
  indexOf first_message (messages (deref draft_state 0%nat)) = Z.of_nat 0 /\
  messages (deref (delete_message first_message draft_state) 0%nat) = [].
Proof.
  split; [reflexivity|]. split; [vm_compute; reflexivity|].
  rewrite (proj1 (proj1 (delete_message_removes first_message draft_state
                           0%nat eq_refl) 0%nat
                    ltac:(vm_compute; reflexivity))).
  vm_compute. reflexivity.
Defined.

(** [truncate] keeps exactly the messages before the first occurrence of
    the message, so that the message is no longer in the list; when the
    message is not in the list, nothing at all changes. *)
Theorem truncate_keeps_prefix (msg : MsgObj) (s : St) (c : nat) :
  currentChat (app s) = Some c ->
  let ms := messages (deref s c) in
  let ms' := messages (deref (truncate msg s) c) in
  (forall p, indexOf msg ms = Z.of_nat p ->
     ms' = take p ms /\ indexOf msg ms' = -1) /\
  (indexOf msg ms = -1 -> truncate msg s = s).
Proof.
  intros Hc. cbv zeta. unfold truncate. rewrite Hc.
  destruct (indexOf_spec msg (messages (deref s c)))
    as [[H _]|(q & Hq & Hlt & _ & Hpre)].
  - rewrite H. simpl. split; [intros p Hp; lia | reflexivity].
  - rewrite Hq. destruct (Z.leb_spec 0 (Z.of_nat q)); [|lia].
    rewrite messages_update_messages.
    split; [|intros; lia]. intros p Hp. assert (p = q) by lia. subst p.
    rewrite <- Nat2Z.inj_sub by lia. rewrite splice_inside by lia.
    rewrite drop_ge by lia. simpl. rewrite app_nil_r.
    split; [reflexivity|].
    destruct (indexOf_spec msg (take q (messages (deref s c))))
      as [[H' _]|(r & _ & Hr & (slot & Hslot & Hh) & _)]; [exact H'|].
    exfalso. rewrite Forall_forall in Hpre. apply (Hpre slot); [|exact Hh].
    apply list_elem_of_lookup. eauto.
Qed.

Lemma truncate_keeps_prefix_witness :
  currentChat (app streaming_then_insert) = Some 0%nat /\
  indexOf first_message (messages (deref streaming_then_insert 0%nat))
  = Z.of_nat 1 /\
  messages (deref (truncate first_message streaming_then_insert) 0%nat)
  = [Some inserted_message].
Proof.
  split; [reflexivity|]. split; [vm_compute; reflexivity|].
  rewrite (proj1 (proj1 (truncate_keeps_prefix first_message
                           streaming_then_insert 0%nat eq_refl) 1%nat
                    ltac:(vm_compute; reflexivity))).
  vm_compute. reflexivity.
Defined.

(** ** The streaming exchange, continued *)

Lemma cancel_counters (s : St) :
  next_obj (rt (cancel s)) = next_obj (rt s) /\
  next_uuid (rt (cancel s)) = next_uuid (rt s) /\
  next_ws (rt (cancel s)) = next_ws (rt s) /\
  uuids (rt (cancel s)) = uuids (rt s).
Proof.
  destruct s as [[? ? ? ? ? ? ? [t|] [ac|] [ws|] ?] r]; auto.
Qed.

Lemma indexOf_from_app_new (m : MsgObj) (arr : list (option MsgObj)) (k : Z) :
  Forall (fun slot => ~ holds m slot) arr ->
  indexOf_from k m (arr ++ [Some m]) = k + Z.of_nat (length arr).
Proof.
  intros H. revert k. induction H as [|slot arr Hn _ IH]; intros k; simpl.
  - rewrite Nat.eqb_refl. lia.
  - destruct slot as [x|].
    + destruct (Nat.eqb_spec (addr x) (addr m)) as [He|_].
      * exfalso. apply Hn. now exists x.
      * rewrite IH. lia.
    + rewrite IH. lia.
Qed.

Lemma deref_heap_eq (s1 s2 : St) (c : nat) :
  heap (rt s1) = heap (rt s2) -> deref s1 c = deref s2 c.
Proof. unfold deref. now intros ->. Qed.

(** With no message given, [chat] appends one placeholder to the current
    chat and streams into it: when the placeholder is a new object, the
    index its handlers capture is the placeholder's position at the end of
    the list; the history sent is the list as it was before (or the one
    given), and the request names the placeholder's id. *)
Theorem chat_appends_placeholder prompt model determinism maxTokens api_key
    messages_ (s : St) (c : nat) :
  currentChat (app s) = Some c ->
  let p := placeholder (next_obj (rt s)) (uuids (rt s) (next_uuid (rt s))) in
  Forall (fun slot => ~ holds p slot) (messages (deref s c)) ->
  let s' := chat prompt model determinism maxTokens api_key messages_ None s in
  messages (deref s' c) = (messages (deref s c) ++ [Some p])%list /\
  busy (app s') = true /\
  streamWebSocket (app s') = Some (next_ws (rt s)) /\
  exists ex,
    sockets (rt s') !! next_ws (rt s) = Some ex /\
    ex_chat ex = c /\ ex_message ex = p /\
    ex_index ex = Z.of_nat (length (messages (deref s c))) /\
    req_messages (ex_request ex) = default (messages (deref s c)) messages_ /\
    req_id (ex_request ex) = uuids (rt s) (next_uuid (rt s)) /\
    req_continuation (ex_request ex) = Some "".
Proof.
  intros Hc p Hfresh s'. subst s'. unfold chat.
  change (currentChat (app (on_app (set_busy true) (cancel s))))
    with (currentChat (app (cancel s))).
  rewrite cancel_app. simpl currentChat. rewrite Hc.
  cbn -[cancel temperature].
  destruct (cancel_counters s) as (Ho & Hu & Hw & Hus).
  rewrite Ho, Hu, Hw, Hus.
  fold (placeholder (next_obj (rt s)) (uuids (rt s) (next_uuid (rt s)))).
  fold p.
  set (X := on_rt _ (on_rt _ (on_app (set_busy true) (cancel s)))).
  assert (HX : deref X c = deref s c).
  { apply deref_heap_eq. subst X. cbn -[cancel]. apply cancel_heap. }
  assert (HB : deref (on_app (set_busy true) (cancel s)) c = deref s c).
  { apply deref_heap_eq. cbn -[cancel]. apply cancel_heap. }
  assert (Hm : messages (deref (update_messages c (push p) X) c)
               = (messages (deref s c) ++ [Some p])%list).
  { rewrite messages_update_messages, HX. reflexivity. }
  rewrite Hm, HB.
  split.
  { rewrite <- Hm. reflexivity. }
  split; [reflexivity|]. split; [reflexivity|].
  eexists. split; [apply lookup_insert_eq|]. simpl.
  split; [reflexivity|]. split; [reflexivity|].
  split; [|destruct messages_; auto].
  unfold indexOf. rewrite indexOf_from_app_new by exact Hfresh. lia.
Qed.

Lemma chat_appends_placeholder_witness :
  currentChat (app draft_state) = Some 0%nat /\
  messages (deref (chat "" "gpt-4" 50 1000 "" None None draft_state) 0%nat)
  = [Some first_message; Some (placeholder 2 "a")].
Proof.
  split; [reflexivity|].
  refine (proj1 (chat_appends_placeholder "" "gpt-4" 50%float 1000 "" None
                   draft_state 0%nat eq_refl _)).
  change (messages (deref draft_state 0%nat)) with [Some first_message].
  repeat constructor. intros (x & [= <-] & Hx). discriminate.
Defined.

Lemma toSend_from (cont : MsgObj) (ms : list (option MsgObj)) (k : Z) :
  0 <= k ->
  (forall p : nat, indexOf_from k cont ms = k + Z.of_nat p ->
     toSend cont ms = take (S p) ms) /\
  (indexOf_from k cont ms = -1 -> toSend cont ms = ms).
Proof.
  revert k. induction ms as [|slot ms IH]; intros k Hk.
  - split; [intros p; simpl; lia | reflexivity].
  - destruct (IH (k + 1) ltac:(lia)) as [IH1 IH2].
    assert (Hstep : forall ix,
              indexOf_from (k + 1) cont ms = ix ->
              (forall p : nat, ix = k + Z.of_nat p ->
                 slot :: toSend cont ms = take (S p) (slot :: ms)) /\
              (ix = -1 -> slot :: toSend cont ms = slot :: ms)).
    { intros ix Hix. split.
      - intros p Hp. destruct p as [|p].
        + destruct (indexOf_from_spec cont ms (k + 1) ltac:(lia))
            as [[H _]|(q & H & _)]; lia.
        + simpl. f_equal. apply IH1. lia.
      - intros H. f_equal. apply IH2. lia. }
    destruct slot as [x|]; simpl.
    + destruct (Nat.eqb_spec (addr x) (addr cont)) as [He|Hne].
      * split; [|lia]. intros p Hp. assert (p = 0%nat) by lia. subst p.
        simpl. now rewrite take_0.
      * exact (Hstep _ eq_refl).
    + exact (Hstep _ eq_refl).
Qed.

(** [continue] sends the messages up to and including the first
    occurrence of the message to continue (all of them when it is not in
    the list), streams into that message with its text as the seed, and
    appends nothing to the chat. *)
Theorem continue_sends_prefix (cont : MsgObj) prompt model determinism
    maxTokens apiKey (s : St) (c : nat) :
  currentChat (app s) = Some c ->
  let ms := messages (deref s c) in
  let s' := continue cont prompt model determinism maxTokens apiKey s in
  heap (rt s') = heap (rt s) /\
  exists ex,
    sockets (rt s') !! next_ws (rt s) = Some ex /\
    ex_message ex = cont /\
    ex_index ex = indexOf cont ms /\
    req_id (ex_request ex) = msg_id (val cont) /\
    req_continuation (ex_request ex) = message (val cont) /\
    (forall p : nat, indexOf cont ms = Z.of_nat p ->
       req_messages (ex_request ex) = take (S p) ms) /\
    (indexOf cont ms = -1 -> req_messages (ex_request ex) = ms).
Proof.
  intros Hc. cbv zeta. unfold continue. rewrite Hc. unfold chat.
  change (currentChat (app (on_app (set_busy true) (cancel s))))
    with (currentChat (app (cancel s))).
  rewrite cancel_app. simpl currentChat. rewrite Hc.
  cbn -[cancel temperature].
  destruct (cancel_counters s) as (_ & _ & Hw & _). rewrite Hw.
  assert (HB : deref (on_app (set_busy true) (cancel s)) c = deref s c).
  { apply deref_heap_eq. cbn -[cancel]. apply cancel_heap. }
  rewrite HB. split; [apply cancel_heap|].
  eexists. split; [apply lookup_insert_eq|]. simpl.
  repeat (split; [reflexivity|]).
  destruct (toSend_from cont (messages (deref s c)) 0 ltac:(lia)) as [H1 H2].
  split; [intros p Hp; apply H1; exact Hp | exact H2].
Qed.

Lemma continue_sends_prefix_witness :
  currentChat (app streaming_then_insert) = Some 0%nat /\
  exists ex,
    sockets (rt (continue first_message "" "gpt-4" 50 1000 ""
                   streaming_then_insert)) !! 1%nat = Some ex /\
    req_messages (ex_request ex)
    = [Some inserted_message; Some first_message].
Proof.
  split; [reflexivity|].
  destruct (continue_sends_prefix first_message "" "gpt-4" 50%float 1000 ""
              streaming_then_insert 0%nat eq_refl)
    as (_ & ex & Hex & _ & _ & _ & _ & Hp & _).
  exists ex. split; [exact Hex|].
  rewrite (Hp 1%nat ltac:(vm_compute; reflexivity)).
  vm_compute. reflexivity.
Defined.

Lemma publish_rt_app (s : St) :
  app (publish s) = app s /\ heap (rt (publish s)) = heap (rt s) /\
  timers (rt (publish s)) = timers (rt s) /\
  next_timer (rt (publish s)) = next_timer (rt s) /\
  sockets (rt (publish s)) = sockets (rt s).
Proof. unfold publish. destruct (publishCallback (app s)); auto. Qed.

(** However an exchange ends, by the socket closing or by a transport
    error, [busy] is cleared and a flush is scheduled. *)
Theorem exchange_end_clears_busy (ws : nat) (ev : string) (s : St) (ex : Exchange) :
  sockets (rt s) !! ws = Some ex ->
  (busy (app (onClose ws s)) = false /\
   exists t, _dirtySave (app (onClose ws s)) = Some t /\
             timers (rt (onClose ws s)) !! t = Some 1500) /\
  (busy (app (onError ws ev s)) = false /\
   exists t, _dirtySave (app (onError ws ev s)) = Some t /\
             timers (rt (onError ws ev s)) !! t = Some 1500).
Proof.
  intros Hex. unfold onClose, onError. rewrite Hex. cbv zeta.
  unfold new_object. cbv iota beta.
  split;
    (match goal with |- context [dirty false ?x] =>
       split;
       [rewrite dirty_app; cbn [busy set_dirtySave];
        rewrite (proj1 (publish_rt_app _)); reflexivity
       |exists (next_timer (rt x));
        split; [rewrite dirty_app; reflexivity | exact (dirty_timers false x)]]
     end).
Qed.

Lemma exchange_end_clears_busy_witness :
  sockets (rt streaming_then_insert) !! 0%nat
  = Some (mkExchange
            (mkRequest [Some first_message] "gpt-4" (temperature 50) ""
               "a" 1000 (Some "") "")
            0 1 (placeholder 2 "a")) /\
  busy (app streaming_then_insert) = true /\
  busy (app (onClose 0 streaming_then_insert)) = false.
Proof.
  assert (H : sockets (rt streaming_then_insert) !! 0%nat
              = Some (mkExchange
                        (mkRequest [Some first_message] "gpt-4"
                           (temperature 50) "" "a" 1000 (Some "") "")
                        0 1 (placeholder 2 "a"))).
  { vm_compute. reflexivity. }
  split; [exact H|]. split; [reflexivity|].
  exact (proj1 (proj1 (exchange_end_clears_busy 0 "" streaming_then_insert _ H))).
Defined.

(** On a transport error the slot at the captured index, when it is
    inside the list, receives a new copy of the message the handlers
    hold, with the same id, role and text and with the error text
    attached; the other slots stay. *)
Theorem onError_attaches_error (ws : nat) (ev : string) (s : St) (ex : Exchange) :
  sockets (rt s) !! ws = Some ex ->
  0 <= ex_index ex < Z.of_nat (length (messages (deref s (ex_chat ex)))) ->
  exists copy,
    messages (deref (onError ws ev s) (ex_chat ex))
    = <[Z.to_nat (ex_index ex) := Some copy]> (messages (deref s (ex_chat ex))) /\
    addr copy = next_obj (rt s) /\
    msg_id (val copy) = msg_id (val (ex_message ex)) /\
    role (val copy) = role (val (ex_message ex)) /\
    message (val copy) = message (val (ex_message ex)) /\
    error (val copy) = Some ("Websocket error: " ++ ev)%string.
Proof.
  intros Hex Hix. unfold onError. rewrite Hex. cbv zeta.
  unfold new_object. cbv iota beta.
  exists (error_copy (next_obj (rt s)) (val (ex_message ex)) ev).
  split; [|repeat split; reflexivity].
  rewrite deref_dirty.
  match goal with |- context [publish ?x] =>
    rewrite (deref_heap_eq (publish x) x)
      by apply (proj1 (proj2 (publish_rt_app x))) end.
  match goal with |- context [on_app (set_busy false) ?x] =>
    rewrite (deref_heap_eq (on_app (set_busy false) x) x) by reflexivity end.
  rewrite messages_update_messages. unfold array_set.
  destruct (Z.ltb_spec (ex_index ex) 0); [lia|].
  match goal with |- context [?a <? Z.of_nat (length ?l)] =>
    destruct (Z.ltb_spec a (Z.of_nat (length l))) as [_|Hge] end.
  - reflexivity.
  - exfalso. revert Hge.
    match goal with |- context [deref ?x (ex_chat ex)] =>
      rewrite (deref_heap_eq x s) by reflexivity end.
    lia.
Qed.

Lemma onError_attaches_error_witness :
  exists copy,
    messages (deref (onError 0 "[object Event]" streaming_then_insert) 0%nat)
    = [Some inserted_message; Some copy; Some (placeholder 2 "a")] /\
    error (val copy) = Some "Websocket error: [object Event]".
Proof.
  assert (H : sockets (rt streaming_then_insert) !! 0%nat
              = Some (mkExchange
                        (mkRequest [Some first_message] "gpt-4"
                           (temperature 50) "" "a" 1000 (Some "") "")
                        0 1 (placeholder 2 "a"))).
  { vm_compute. reflexivity. }
  destruct (onError_attaches_error 0 "[object Event]" streaming_then_insert
              _ H ltac:(vm_compute; split; [discriminate | reflexivity]))
    as (copy & Hm & _ & _ & _ & _ & He).
  exists copy. split; [|exact He]. exact Hm.
Defined.

(** ** Opening, creating and saving chats *)

Lemma isSaved_ext (s1 s2 : St) :
  currentChat (app s1) = currentChat (app s2) ->
  user (app s1) = user (app s2) ->
  (forall c, currentChat (app s2) = Some c -> deref s1 c = deref s2 c) ->
  isSaved s1 = isSaved s2.
Proof.
  intros Hc Hu Hd. unfold isSaved. rewrite Hc, Hu.
  destruct (currentChat (app s2)) as [c|]; [|reflexivity].
  now rewrite (Hd c eq_refl).
Qed.

Lemma isSaved_publish (s : St) : isSaved (publish s) = isSaved s.
Proof.
  destruct (publish_rt_app s) as (Ha & Hh & _).
  apply isSaved_ext; rewrite ?Ha; try reflexivity.
  intros c _. now apply deref_heap_eq.
Qed.

Lemma isSaved_dirty (saveNow : bool) (s : St) :
  isSaved (dirty saveNow s) = isSaved s.
Proof.
  apply isSaved_ext; rewrite ?dirty_app; try reflexivity.
  intros c _. apply deref_dirty.
Qed.

(** The conditions of [isSaved], read off the current chat. *)
Lemma isSaved_true (s : St) (c : nat) (u : User) (i : string) :
  currentChat (app s) = Some c -> user (app s) = Some u ->
  id (deref s c) = Str i -> i <> "" ->
  user_id (deref s c) = Str (user_ident u) ->
  loaded (deref s c) = true ->
  isSaved s = true.
Proof.
  intros Hc Hu Hi Hne Ho Hl. unfold isSaved.
  rewrite Hc, Hu, Hi, Ho, Hl. simpl.
  apply eqb_empty_false in Hne. rewrite Hne. simpl.
  now rewrite String.eqb_refl.
Qed.

(** [openChat] of a chat makes it current.  The chat that was current is
    stashed when it is another chat and is not saved; otherwise the stash
    stays as it is.  A loaded chat is never fetched; a chat that is not
    loaded is fetched by its id. *)
Theorem openChat_switches (chat : nat) (s : St) :
  let s' := openChat (Some chat) s in
  currentChat (app s') = Some chat /\
  heap (rt s') = heap (rt s) /\
  (currentChat (app s) <> Some chat -> isSaved s = false ->
   unsavedChat (app s') = currentChat (app s)) /\
  (currentChat (app s) = Some chat \/ isSaved s = true ->
   unsavedChat (app s') = unsavedChat (app s)) /\
  (loaded (deref s chat) = true ->
   forall i, HttpGetChat i ∈ log (rt s') -> HttpGetChat i ∈ log (rt s)) /\
  (loaded (deref s chat) = false ->
   exists rest, log (rt s') = HttpGetChat (id (deref s chat)) :: rest).
Proof.
  cbv zeta. unfold openChat.
  set (s1 := if _ && _ then _ else s).
  assert (H1 : currentChat (app s1) = currentChat (app s) /\
               rt s1 = rt s /\ publishCallback (app s1) = publishCallback (app s)).
  { subst s1. destruct (_ && _); auto. }
  destruct H1 as (Hc1 & Hr1 & Hp1).
  assert (Hd : deref s1 chat = deref s chat).
  { apply deref_heap_eq. now rewrite Hr1. }
  rewrite Hd.
  assert (Hpub : forall x,
             app (publish x) = app x /\
             (forall i, HttpGetChat i ∈ log (rt (publish x)) ->
                        HttpGetChat i ∈ log (rt x))).
  { intros x. unfold publish. destruct (publishCallback (app x)); [|auto].
    split; [reflexivity|]. simpl. intros i Hi.
    apply elem_of_cons in Hi. destruct Hi as [Hi|Hi]; [discriminate | exact Hi]. }
  assert (Hstash :
    (currentChat (app s) <> Some chat -> isSaved s = false ->
     unsavedChat (app s1) = currentChat (app s)) /\
    (currentChat (app s) = Some chat \/ isSaved s = true ->
     unsavedChat (app s1) = unsavedChat (app s))).
  { subst s1. split.
    - intros Hne Hs. rewrite Hs, bool_decide_eq_false_2 by exact Hne. reflexivity.
    - intros [He|Hs].
      + rewrite bool_decide_eq_true_2 by exact He. reflexivity.
      + rewrite Hs, andb_false_r. reflexivity. }
  destruct Hstash as [Hst1 Hst2].
  destruct (loaded (deref s chat)) eqn:Hl.
  - destruct (Hpub (on_app (set_currentChat (Some chat)) s1)) as [Ha Hlog].
    rewrite Ha. simpl.
    rewrite (proj1 (proj2 (publish_rt_app _))). simpl. rewrite Hr1.
    repeat split; auto; try discriminate.
    intros _ i Hi. apply Hlog in Hi. simpl in Hi. now rewrite Hr1 in Hi.
  - destruct (Hpub (on_app (set_currentChat (Some chat)) s1)) as [Ha Hlog].
    simpl. rewrite Ha. simpl.
    rewrite (proj1 (proj2 (publish_rt_app _))). simpl. rewrite Hr1.
    repeat split; auto; try discriminate.
    intros _. eexists. f_equal. f_equal.
    match goal with |- context [deref (publish ?x) chat] =>
      rewrite (deref_heap_eq (publish x) s chat)
        by (rewrite (proj1 (proj2 (publish_rt_app x))); simpl; now rewrite Hr1)
    end. reflexivity.
Qed.

Lemma openChat_switches_witness :
  currentChat (app (openChat None saved_state_with_draft)) <> Some 0%nat /\
  isSaved (openChat None saved_state_with_draft) = false /\
  unsavedChat (app (openChat (Some 0%nat) (openChat None saved_state_with_draft)))
  = Some 1%nat.
Proof.
  assert (H1 : currentChat (app (openChat None saved_state_with_draft))
               <> Some 0%nat) by (vm_compute; discriminate).
  assert (H2 : isSaved (openChat None saved_state_with_draft) = false)
    by (vm_compute; reflexivity).
  split; [exact H1|]. split; [exact H2|].
  rewrite (proj1 (proj2 (proj2 (openChat_switches 0%nat
                                  (openChat None saved_state_with_draft))))
             H1 H2).
  vm_compute. reflexivity.
Defined.

Lemma openChat_loaded (chat : nat) (s : St) :
  loaded (deref s chat) = true ->
  openChat (Some chat) s
  = publish
      (on_app (set_currentChat (Some chat))
         (if negb (bool_decide (currentChat (app s) = Some chat))
             && negb (isSaved s)
          then on_app (set_unsavedChat (currentChat (app s))) s
          else s)).
Proof.
  intros Hl. unfold openChat.
  destruct (negb (bool_decide (currentChat (app s) = Some chat))
            && negb (isSaved s));
    match goal with |- context [loaded (deref ?x chat)] =>
      change (deref x chat) with (deref s chat) end;
    now rewrite Hl.
Qed.

Lemma deref_store_eq (c : nat) (v : Chat) (s : St) : deref (store c v s) c = v.
Proof. unfold deref, store. simpl. apply lookup_total_insert_eq. Qed.

Lemma deref_store_ne (c k : nat) (v : Chat) (s : St) :
  c <> k -> deref (store c v s) k = deref s k.
Proof.
  intros H. unfold deref, store. simpl. now apply lookup_total_insert_ne.
Qed.

(** The state [newChat] returns when a user is set. *)
Lemma newChat_state (s : St) (u : User) :
  user (app s) = Some u ->
  uuids (rt s) (next_uuid (rt s)) <> "" ->
  currentChat (app s) <> Some (next_obj (rt s)) ->
  exists s',
    newChat s = Returned s' /\
    currentChat (app s') = Some (next_obj (rt s)) /\
    isSaved s' = true /\
    chats (app s') = (chats (app s) ++ [next_obj (rt s)])%list /\
    unsavedChat (app s')
    = (if isSaved s then unsavedChat (app s) else currentChat (app s)) /\
    timers (rt s') = timers (rt s) /\
    _dirtySave (app s') = _dirtySave (app s) /\
    (forall k, k <> next_obj (rt s) -> deref s' k = deref s k).
Proof.
  intros Hu Hne Hfresh. unfold newChat. cbn -[openChat]. rewrite Hu.
  eexists. split; [reflexivity|].
  set (n := next_obj (rt s)) in *.
  set (uuid := uuids (rt s) (next_uuid (rt s))) in *.
  rewrite deref_store_eq.
  set (X := on_app _ (store n _ (store n _ _))).
  assert (HXn : deref X n
                = set_user_id (Str (user_ident u))
                    (set_loaded true (set_id (Str uuid) new_Chat))).
  { subst X. rewrite (deref_heap_eq (on_app _ _) (store n
      (set_user_id (Str (user_ident u))
         (set_loaded true (set_id (Str uuid) new_Chat)))
      (store n (set_loaded true (set_id (Str uuid) new_Chat))
         (on_rt (fun r => set_next_uuid (S (next_uuid r)) r)
            (on_rt (fun r => set_next_obj (S (next_obj r)) r) s)))) n)
      by reflexivity.
    apply deref_store_eq. }
  assert (HXk : forall k, k <> n -> deref X k = deref s k).
  { intros k Hk. subst X.
    rewrite (deref_heap_eq (on_app _ _) (store n
      (set_user_id (Str (user_ident u))
         (set_loaded true (set_id (Str uuid) new_Chat)))
      (store n (set_loaded true (set_id (Str uuid) new_Chat))
         (on_rt (fun r => set_next_uuid (S (next_uuid r)) r)
            (on_rt (fun r => set_next_obj (S (next_obj r)) r) s)))) k)
      by reflexivity.
    rewrite !deref_store_ne by congruence. now apply deref_heap_eq. }
  assert (HsX : isSaved X = isSaved s).
  { apply isSaved_ext; try reflexivity.
    intros c Hc. apply HXk. congruence. }
  rewrite openChat_loaded by (rewrite HXn; reflexivity).
  change (currentChat (app X)) with (currentChat (app s)).
  rewrite bool_decide_eq_false_2 by exact Hfresh. rewrite HsX.
  cbn [negb andb].
  set (X1 := if negb (isSaved s)
             then on_app (set_unsavedChat (currentChat (app s))) X else X).
  assert (H1 : heap (rt X1) = heap (rt X) /\ chats (app X1) = chats (app X) /\
               user (app X1) = user (app X) /\
               timers (rt X1) = timers (rt X) /\
               _dirtySave (app X1) = _dirtySave (app X) /\
               unsavedChat (app X1)
               = if isSaved s then unsavedChat (app s) else currentChat (app s)).
  { subst X1. destruct (isSaved s); simpl; auto 10. }
  destruct H1 as (Hh & Hch & Hus & Ht & Hds & Hun).
  destruct (publish_rt_app (on_app (set_currentChat (Some n)) X1))
    as (Ha & Hhp & Htp & _).
  rewrite Ha, Htp. simpl. rewrite Hch, Hun, Ht, Hds.
  assert (Hd : forall k,
             deref (publish (on_app (set_currentChat (Some n)) X1)) k
             = deref X k).
  { intros k. apply deref_heap_eq. rewrite Hhp. exact Hh. }
  split; [reflexivity|]. split.
  - apply (isSaved_true _ n u uuid); rewrite ?Ha, ?Hd, ?HXn; simpl; auto.
    rewrite Hus. exact Hu.
  - repeat split; try reflexivity.
    intros k Hk. rewrite Hd. now apply HXk.
Qed.

Lemma openChat_none_restores (s : St) (d : nat) :
  isSaved s = true -> unsavedChat (app s) = Some d ->
  currentChat (app (openChat None s)) = Some d /\
  unsavedChat (app (openChat None s)) = None /\
  heap (rt (openChat None s)) = heap (rt s).
Proof.
  intros Hs Hd. unfold openChat. rewrite Hs, Hd.
  destruct (publish_rt_app (on_app (set_unsavedChat None)
                              (on_app (set_currentChat (Some d)) s)))
    as (-> & -> & _).
  auto.
Qed.

(** With a user set, [newChat] makes a new chat current that is saved
    from the start and goes last in the list of chats; the chat that was
    current is stashed when it was not saved; no flush is scheduled.  With
    no user set it throws, and the object's fields are as before. *)
Theorem newChat_opens_saved_chat (s : St) :
  (forall u, user (app s) = Some u ->
   uuids (rt s) (next_uuid (rt s)) <> "" ->
   currentChat (app s) <> Some (next_obj (rt s)) ->
   exists s',
     newChat s = Returned s' /\
     currentChat (app s') = Some (next_obj (rt s)) /\
     isSaved s' = true /\
     chats (app s') = (chats (app s) ++ [next_obj (rt s)])%list /\
     unsavedChat (app s')
     = (if isSaved s then unsavedChat (app s) else currentChat (app s)) /\
     timers (rt s') = timers (rt s) /\
     _dirtySave (app s') = _dirtySave (app s)) /\
  (user (app s) = None ->
   exists s', newChat s = Threw "TypeError" s' /\ app s' = app s).
Proof.
  split.
  - intros u Hu Hne Hfresh.
    destruct (newChat_state s u Hu Hne Hfresh)
      as (s' & H1 & H2 & H3 & H4 & H5 & H6 & H7 & _).
    exists s'. auto 10.
  - intros Hu. unfold newChat. cbn -[openChat]. rewrite Hu.
    eexists. split; [reflexivity|]. destruct s as [a r]. reflexivity.
Qed.

Lemma newChat_opens_saved_chat_witness :
  user (app saved_state) = Some user1 /\
  exists s',
    newChat saved_state = Returned s' /\
    currentChat (app s') = Some 1%nat /\ isSaved s' = true.
Proof.
  split; [reflexivity|].
  destruct (proj1 (newChat_opens_saved_chat saved_state) user1 eq_refl
              ltac:(vm_compute; discriminate)
              ltac:(vm_compute; discriminate))
    as (s' & H1 & H2 & H3 & _).
  exists s'. auto.
Defined.

(** A draft survives a detour: when the current chat is an unsaved draft,
    [newChat] followed by [openChat(null)] makes that draft current
    again, unchanged, and clears the stash. *)
Theorem newChat_then_blank_slate (s : St) (u : User) (d : nat) :
  user (app s) = Some u ->
  uuids (rt s) (next_uuid (rt s)) <> "" ->
  currentChat (app s) = Some d ->
  d <> next_obj (rt s) ->
  isSaved s = false ->
  exists s1,
    newChat s = Returned s1 /\
    currentChat (app (openChat None s1)) = Some d /\
    unsavedChat (app (openChat None s1)) = None /\
    deref (openChat None s1) d = deref s d.
Proof.
  intros Hu Hne Hd Hfresh Hs.
  destruct (newChat_state s u Hu Hne ltac:(congruence))
    as (s1 & H1 & _ & H3 & _ & H5 & _ & _ & H8).
  rewrite Hs, Hd in H5.
  destruct (openChat_none_restores s1 d H3 H5) as (Hc & Hun & Hh).
  exists s1. repeat split; auto.
  rewrite (deref_heap_eq _ s1 d Hh). now apply H8.
Qed.

Lemma newChat_then_blank_slate_witness :
  isSaved draft_state = false /\
  exists s1,
    newChat (on_app (set_user (Some user1)) draft_state) = Returned s1 /\
    currentChat (app (openChat None s1)) = Some 0%nat.
Proof.
  split; [reflexivity|].
  destruct (newChat_then_blank_slate
              (on_app (set_user (Some user1)) draft_state) user1 0%nat
              eq_refl ltac:(vm_compute; discriminate) eq_refl
              ltac:(vm_compute; discriminate) ltac:(vm_compute; reflexivity))
    as (s1 & H1 & H2 & _).
  exists s1. auto.
Defined.

(** [saveCurrentDraft] turns a loaded draft into a saved chat of the
    user: it gets a new id and the user's id, keeps its messages, is in
    the list of chats exactly once more than before if it was absent,
    stays current, the stash is cleared and a flush is scheduled.  When
    the current chat is already saved, or no user is set, nothing
    changes. *)
Theorem saveCurrentDraft_saves (s : St) :
  (forall u c,
   isSaved s = false -> user (app s) = Some u ->
   currentChat (app s) = Some c -> loaded (deref s c) = true ->
   uuids (rt s) (next_uuid (rt s)) <> "" ->
   exists s',
     saveCurrentDraft s = Returned s' /\
     isSaved s' = true /\
     currentChat (app s') = Some c /\
     unsavedChat (app s') = None /\
     id (deref s' c) = Str (uuids (rt s) (next_uuid (rt s))) /\
     messages (deref s' c) = messages (deref s c) /\
     chats (app s')
     = (if bool_decide (c ∈ chats (app s)) then chats (app s)
        else chats (app s) ++ [c])%list /\
     exists t, _dirtySave (app s') = Some t /\ timers (rt s') !! t = Some 1500) /\
  (isSaved s = true \/ user (app s) = None -> saveCurrentDraft s = Returned s).
Proof.
  split.
  - intros u c Hs Hu Hc Hl Hne. unfold saveCurrentDraft.
    rewrite Hs, Hu, Hc. cbn -[openChat dirty].
    eexists. split; [reflexivity|].
    set (uuid := uuids (rt s) (next_uuid (rt s))) in *.
    rewrite !deref_store_eq.
    set (s0 := on_rt _ s).
    set (C := set_user_id _ (set_id _ (deref s0 c))).
    set (X0 := store c C (store c _ s0)).
    change (chats (app X0)) with (chats (app s)).
    set (X1 := if bool_decide (c ∈ chats (app s)) then X0 else _).
    set (X := on_app (set_unsavedChat None) X1).
    assert (HX : heap (rt X) = heap (rt X0) /\
                 currentChat (app X) = Some c /\ user (app X) = Some u /\
                 unsavedChat (app X) = None /\
                 chats (app X)
                 = (if bool_decide (c ∈ chats (app s)) then chats (app s)
                    else chats (app s) ++ [c])%list).
    { subst X X1. destruct (bool_decide (c ∈ chats (app s))); simpl; auto. }
    destruct HX as (Hh & HcX & HuX & HunX & HchX).
    assert (HXc : deref X c = C).
    { rewrite (deref_heap_eq X X0 c Hh). subst X0. apply deref_store_eq. }
    assert (HlC : loaded C = true) by (subst C s0; exact Hl).
    rewrite openChat_loaded by (rewrite HXc; exact HlC).
    rewrite HcX, bool_decide_eq_true_2 by reflexivity. cbn [negb andb].
    set (Y := publish (on_app (set_currentChat (Some c)) X)).
    destruct (publish_rt_app (on_app (set_currentChat (Some c)) X))
      as (Ha & Hhp & _).
    fold Y in Ha, Hhp.
    assert (HYc : deref (dirty false Y) c = C).
    { rewrite deref_dirty, (deref_heap_eq Y X c Hhp). exact HXc. }
    split.
    { rewrite isSaved_dirty.
      apply (isSaved_true Y c u uuid);
        rewrite ?Ha, ?(deref_heap_eq Y X c Hhp), ?HXc;
        first [exact HlC | exact Hne | exact HuX | reflexivity]. }
    assert (Hfin : app (dirty false Y)
                   = set_dirtySave (Some (next_timer (rt Y)))
                       (set_currentChat (Some c) (app X)))
      by (rewrite dirty_app, Ha; reflexivity).
    rewrite HYc, Hfin.
    cbn [currentChat unsavedChat chats _dirtySave set_dirtySave
         set_currentChat].
    rewrite HunX, HchX.
    repeat (split; [reflexivity|]).
    exists (next_timer (rt Y)). split; [reflexivity|].
    apply (dirty_timers false).
  - intros [Hs|Hu]; unfold saveCurrentDraft.
    + now rewrite Hs.
    + rewrite Hu. now destruct (isSaved s).
Qed.

Lemma saveCurrentDraft_saves_witness :
  isSaved (on_app (set_user (Some user1)) draft_state) = false /\
  exists s',
    saveCurrentDraft (on_app (set_user (Some user1)) draft_state)
    = Returned s' /\
    isSaved s' = true /\ chats (app s') = [0%nat].
Proof.
  split; [reflexivity|].
  destruct (proj1 (saveCurrentDraft_saves
                     (on_app (set_user (Some user1)) draft_state))
              user1 0%nat eq_refl eq_refl eq_refl
              ltac:(vm_compute; reflexivity) ltac:(vm_compute; discriminate))
    as (s' & H1 & H2 & _ & _ & _ & _ & H7 & _).
  exists s'. auto.
Defined.

(** ** Deleting and importing chats *)

Lemma indexOf_chat_from_spec (c : nat) (l : list nat) (k : Z) :
  0 <= k ->
  (indexOf_chat_from k c l = -1 /\ c ∉ l) \/
  (exists p : nat,
     indexOf_chat_from k c l = k + Z.of_nat p /\ (p < length l)%nat /\
     l = (take p l ++ c :: drop (S p) l)%list /\ c ∉ take p l).
Proof.
  revert k. induction l as [|x l IH]; intros k Hk; simpl.
  - left. split; [reflexivity | apply not_elem_of_nil].
  - destruct (Nat.eqb_spec x c) as [->|Hne].
    + right. exists 0%nat. simpl. rewrite drop_0.
      repeat split; [lia | lia | apply not_elem_of_nil].
    + destruct (IH (k + 1) ltac:(lia)) as [[H1 H2]|(p & H1 & H2 & H3 & H4)].
      * left. split; [exact H1|]. apply not_elem_of_cons. auto.
      * right. exists (S p). simpl. split; [lia|]. split; [lia|].
        split; [now rewrite <- H3|]. apply not_elem_of_cons. auto.
Qed.

(** Taking the current chat out of a list without repetitions. *)
Lemma chats_without (c : nat) (l : list nat) :
  NoDup l ->
  let index := indexOf_chat c l in
  let l' := if 0 <=? index then splice index 1 [] l else l in
  (c ∉ l') /\ forall k, k <> c -> k ∈ l -> k ∈ l'.
Proof.
  intros Hnd. cbv zeta.
  destruct (indexOf_chat_from_spec c l 0 ltac:(lia))
    as [[H1 H2]|(p & H1 & H2 & H3 & H4)]; unfold indexOf_chat; rewrite H1.
  - simpl. auto.
  - destruct (Z.leb_spec 0 (0 + Z.of_nat p)); [|lia].
    change (0 + Z.of_nat p) with (Z.of_nat p).
    change 1 with (Z.of_nat 1). rewrite splice_inside by lia.
    replace (p + 1)%nat with (S p) by lia. simpl.
    rewrite H3 in Hnd. apply NoDup_app in Hnd.
    destruct Hnd as (_ & _ & Hnd). apply NoDup_cons in Hnd.
    destruct Hnd as [Hc _]. split.
    + rewrite elem_of_app. tauto.
    + intros k Hk Hin. rewrite H3 in Hin.
      rewrite elem_of_app, elem_of_cons in Hin. rewrite elem_of_app.
      destruct Hin as [Hin|[Hin|Hin]]; [now left | congruence | now right].
Qed.

Lemma openChat_none_new (s : St) :
  isSaved s = true -> unsavedChat (app s) = None ->
  currentChat (app (openChat None s)) = Some (next_obj (rt s)) /\
  deref (openChat None s) (next_obj (rt s))
  = set_loaded true (set_id (Str (uuids (rt s) (next_uuid (rt s)))) new_Chat).
Proof.
  intros Hs Hu. unfold openChat. rewrite Hs, Hu. cbv zeta.
  unfold new_object, uuidv4. cbv iota beta.
  match goal with |- context [publish ?x] =>
    destruct (publish_rt_app x) as (Ha & Hh & _);
    rewrite Ha, (deref_heap_eq (publish x) x _ Hh) end.
  split; [reflexivity|].
  unfold deref. simpl. now rewrite lookup_total_insert_eq.
Qed.

(** Once the remote delete has answered for a saved current chat, that
    chat is gone from the list of chats and is no longer current: the
    stashed draft becomes current if there is one other than the deleted
    chat; otherwise a new chat becomes current, loaded, with a new id, no
    owner and no messages; the stash ends up empty and a flush is
    scheduled with the short delay. *)
Theorem deleteCurrentChat_resume_removes (s : St) (c : nat) :
  isSaved s = true ->
  currentChat (app s) = Some c ->
  c <> next_obj (rt s) ->
  NoDup (chats (app s)) ->
  let s' := deleteCurrentChat_resume s in
  (c ∉ chats (app s')) /\
  (forall k, k <> c -> k ∈ chats (app s) -> k ∈ chats (app s')) /\
  currentChat (app s') <> Some c /\
  (forall d, unsavedChat (app s) = Some d -> d <> c ->
     currentChat (app s') = Some d) /\
  unsavedChat (app s') = None /\
  (exists t, _dirtySave (app s') = Some t /\ timers (rt s') !! t = Some 1) /\
  (unsavedChat (app s) = None \/ unsavedChat (app s) = Some c ->
   let n := next_obj (rt s) in
   currentChat (app s') = Some n /\
   id (deref s' n) = Str (uuids (rt s) (next_uuid (rt s))) /\
   user_id (deref s' n) = Undefined /\
   loaded (deref s' n) = true /\
   messages (deref s' n) = []).
Proof.
  intros Hs Hc Hfresh Hnd. cbv zeta. unfold deleteCurrentChat_resume.
  rewrite Hc.
  destruct (chats_without c (chats (app s)) Hnd) as [Hout Hkeep].
  set (l' := if 0 <=? indexOf_chat c (chats (app s)) then _ else _) in *.
  set (s1 := if 0 <=? indexOf_chat c (chats (app s)) then _ else s).
  assert (H1 : chats (app s1) = l' /\ currentChat (app s1) = Some c /\
               unsavedChat (app s1) = unsavedChat (app s) /\
               user (app s1) = user (app s) /\ rt s1 = rt s).
  { subst s1 l'. destruct (0 <=? indexOf_chat c (chats (app s))); simpl; auto. }
  destruct H1 as (Hch1 & Hc1 & Hu1 & Hus1 & Hr1).
  rewrite Hc1, Hu1.
  set (s2 := if bool_decide (Some c = unsavedChat (app s)) then _ else s1).
  assert (H2 : chats (app s2) = l' /\ currentChat (app s2) = Some c /\
               user (app s2) = user (app s) /\ rt s2 = rt s /\
               (forall d, unsavedChat (app s) = Some d -> d <> c ->
                  unsavedChat (app s2) = Some d) /\
               (unsavedChat (app s2) = None \/
                exists d, unsavedChat (app s2) = Some d /\ d <> c) /\
               (unsavedChat (app s) = None \/ unsavedChat (app s) = Some c ->
                unsavedChat (app s2) = None)).
  { subst s2. destruct (unsavedChat (app s)) as [d|] eqn:Hd.
    - destruct (decide (d = c)) as [->|Hne].
      + rewrite bool_decide_eq_true_2 by reflexivity.
        split; [exact Hch1|]. split; [exact Hc1|]. split; [exact Hus1|].
        split; [exact Hr1|]. split; [|split; [now left | reflexivity]].
        intros d' [= <-]. congruence.
      + rewrite bool_decide_eq_false_2 by congruence.
        split; [exact Hch1|]. split; [exact Hc1|]. split; [exact Hus1|].
        split; [exact Hr1|]. split; [intros d' [= <-] _; exact Hu1|].
        split; [right; exists d; split; [exact Hu1 | exact Hne]|].
        intros [Hn|[= Hn]]; congruence.
    - rewrite bool_decide_eq_false_2 by congruence.
      split; [exact Hch1|]. split; [exact Hc1|]. split; [exact Hus1|].
      split; [exact Hr1|]. split; [intros d'; discriminate|].
      split; [left; exact Hu1 | intros _; exact Hu1]. }
  destruct H2 as (Hch2 & Hc2 & Hus2 & Hr2 & Hd2 & Hcase & Hnone).
  assert (Hs2 : isSaved s2 = true).
  { rewrite <- Hs. apply isSaved_ext; [now rewrite Hc2, Hc | now rewrite Hus2 |].
    intros k _. apply deref_heap_eq. now rewrite Hr2. }
  set (s3 := openChat None s2).
  assert (H3 : chats (app s3) = l' /\ unsavedChat (app s3) = None /\
               currentChat (app s3) <> Some c /\
               (forall d, unsavedChat (app s2) = Some d ->
                  currentChat (app s3) = Some d)).
  { subst s3. unfold openChat. rewrite Hs2.
    destruct (unsavedChat (app s2)) as [d|] eqn:Hd.
    - destruct (publish_rt_app (on_app (set_unsavedChat None)
                                  (on_app (set_currentChat (Some d)) s2)))
        as (-> & _).
      split; [exact Hch2|]. split; [reflexivity|]. split.
      + destruct Hcase as [Hn|(d' & [= <-] & Hne)]; simpl; congruence.
      + intros d' [= <-]. reflexivity.
    - cbv zeta. unfold new_object, uuidv4. cbv iota beta.
      match goal with |- context [publish ?x] =>
        destruct (publish_rt_app x) as (-> & _) end.
      split; [exact Hch2|]. split; [reflexivity|]. split.
      + simpl. rewrite Hr2. congruence.
      + intros d'. discriminate. }
  destruct H3 as (Hch3 & Hu3 & Hc3 & Hd3).
  assert (Hnew : unsavedChat (app s) = None \/ unsavedChat (app s) = Some c ->
                 currentChat (app s3) = Some (next_obj (rt s)) /\
                 deref (dirty true s3) (next_obj (rt s))
                 = set_loaded true
                     (set_id (Str (uuids (rt s) (next_uuid (rt s)))) new_Chat)).
  { intros Hu. rewrite deref_dirty. subst s3.
    destruct (openChat_none_new s2 Hs2 (Hnone Hu)) as [Hn1 Hn2].
    rewrite Hr2 in Hn1, Hn2. split; assumption. }
  rewrite dirty_app.
  cbn [currentChat unsavedChat chats _dirtySave set_dirtySave].
  rewrite Hch3, Hu3.
  split; [exact Hout|]. split; [exact Hkeep|]. split; [exact Hc3|].
  split; [intros d Hd Hne; apply Hd3; now apply Hd2|].
  split; [reflexivity|]. split.
  - eexists. split; [reflexivity|]. apply (dirty_timers true).
  - intros Hu. destruct (Hnew Hu) as [Hn1 Hn2]. rewrite Hn2.
    repeat split; [exact Hn1|..]; reflexivity.
Qed.

Lemma deleteCurrentChat_resume_removes_witness :
  isSaved saved_state_with_draft = true /\
  NoDup (chats (app saved_state_with_draft)) /\
  currentChat (app (deleteCurrentChat_resume saved_state_with_draft))
  = Some 1%nat /\
  chats (app (deleteCurrentChat_resume saved_state_with_draft)) = [] /\
  isSaved saved_state = true /\
  unsavedChat (app saved_state) = None /\
  currentChat (app (deleteCurrentChat_resume saved_state)) = Some 1%nat /\
  messages (deref (deleteCurrentChat_resume saved_state) 1%nat) = [].
Proof.
  assert (Hs : isSaved saved_state_with_draft = true)
    by (vm_compute; reflexivity).
  assert (Hnd : NoDup (chats (app saved_state_with_draft))).
  { change (NoDup [0%nat]). apply NoDup_singleton. }
  assert (Hs' : isSaved saved_state = true) by (vm_compute; reflexivity).
  assert (Hnd' : NoDup (chats (app saved_state))).
  { change (NoDup [0%nat]). apply NoDup_singleton. }
  split; [exact Hs|]. split; [exact Hnd|].
  destruct (deleteCurrentChat_resume_removes saved_state_with_draft 0%nat
              Hs eq_refl ltac:(vm_compute; discriminate) Hnd)
    as (_ & _ & _ & Hd & _).
  split; [apply (Hd 1%nat eq_refl); discriminate|].
  split; [vm_compute; reflexivity|].
  split; [exact Hs'|]. split; [reflexivity|].
  destruct (deleteCurrentChat_resume_removes saved_state 0%nat
              Hs' eq_refl ltac:(vm_compute; discriminate) Hnd')
    as (_ & _ & _ & _ & _ & _ & Hnew).
  destruct (Hnew (or_introl eq_refl)) as (H1 & _ & _ & _ & H5).
  split; [exact H1 | exact H5].
Defined.

Lemma openChat_some_basic (chat : nat) (s : St) :
  currentChat (app (openChat (Some chat) s)) = Some chat /\
  user (app (openChat (Some chat) s)) = user (app s) /\
  heap (rt (openChat (Some chat) s)) = heap (rt s) /\
  next_timer (rt (openChat (Some chat) s)) = next_timer (rt s).
Proof.
  unfold openChat.
  set (s1 := if _ && _ then _ else s).
  assert (H1 : user (app s1) = user (app s) /\ rt s1 = rt s).
  { subst s1. destruct (_ && _); auto. }
  destruct H1 as (Hu & Hr).
  destruct (loaded (deref s1 chat));
    match goal with |- context [publish ?x] =>
      destruct (publish_rt_app x) as (Ha & Hh & _ & Hn & _) end;
    simpl; rewrite Ha, Hh, Hn; simpl; rewrite Hu, Hr; auto.
Qed.

(** An imported chat becomes current under a new id and with no owner,
    so it is not saved; the stash is empty afterwards, whatever was
    current or stashed before; a flush is scheduled. *)
Theorem import_opens_unsaved_copy (data : Chat) (s : St) :
  let s' := import data s in
  let c := next_obj (rt s) in
  currentChat (app s') = Some c /\
  deref s' c
  = set_user_id Null (set_id (Str (uuids (rt s) (next_uuid (rt s)))) data) /\
  isSaved s' = false /\
  unsavedChat (app s') = None /\
  exists t, _dirtySave (app s') = Some t /\ timers (rt s') !! t = Some 1500.
Proof.
  cbv zeta. unfold import. cbn -[openChat dirty].
  set (c := next_obj (rt s)).
  set (C := set_user_id Null _).
  set (X := store c C _).
  destruct (openChat_some_basic c X) as (Hc & Hu & Hh & _).
  set (Y := on_app (set_unsavedChat None) (openChat (Some c) X)).
  assert (HYc : deref (dirty false Y) c = C).
  { rewrite deref_dirty, (deref_heap_eq Y X c Hh). apply deref_store_eq. }
  assert (Happ : app (dirty false Y)
                 = set_dirtySave (Some (next_timer (rt Y)))
                     (set_unsavedChat None (app (openChat (Some c) X))))
    by (rewrite dirty_app; reflexivity).
  rewrite HYc, Happ.
  cbn [currentChat unsavedChat _dirtySave set_dirtySave set_unsavedChat].
  split; [exact Hc|]. split; [reflexivity|]. split.
  - unfold isSaved. rewrite Happ.
    cbn [currentChat user set_dirtySave set_unsavedChat]. rewrite Hc.
    destruct (user (app (openChat (Some c) X))); [|reflexivity].
    rewrite HYc. subst C. simpl.
    now destruct (negb (uuids (rt s) (next_uuid (rt s)) =? "")%string).
  - split; [reflexivity|].
    exists (next_timer (rt Y)). split; [reflexivity|].
    apply (dirty_timers false).
Qed.

(** ** Loading *)

(** [load] always produces a current chat, and that chat is loaded. *)
Theorem load_has_loaded_chat (source : LocalSaveInfo) (r : Runtime) :
  let s := load source r in
  currentChat (app s) = Some (next_obj r) /\
  loaded (deref s (next_obj r)) = true /\
  user (app s) = lsi_user source /\
  chats (app s) = [] /\
  unsavedChat (app s) = None /\
  busy (app s) = false.
Proof.
  cbv zeta. unfold load.
  destruct (lsi_user source) as [u|], (lsi_chat source) as [c|];
    cbn -[deref]; rewrite ?deref_store_eq; repeat split; try reflexivity.
  all: unfold deref; simpl; rewrite lookup_total_insert_eq; reflexivity.
Qed.

(** What a flush writes, [load] brings back: the user, and as current
    chat the chat that was written, marked loaded; that is the stashed
    draft when the current chat is saved and a draft is stashed, and the
    current chat otherwise; with no current chat, an empty chat. *)
Theorem flush_then_load (s : St) (r : Runtime) :
  exists snap,
    localStorage (rt (_doSave s)) !! "appData" = Some snap /\
    let s' := load snap r in
    user (app s') = user (app s) /\
    (isSaved s = true -> forall d, unsavedChat (app s) = Some d ->
     deref s' (next_obj r) = set_loaded true (deref s d)) /\
    (isSaved s = false \/ unsavedChat (app s) = None ->
     forall c, currentChat (app s) = Some c ->
     deref s' (next_obj r) = set_loaded true (deref s c)) /\
    (unsavedChat (app s) = None -> currentChat (app s) = None ->
     deref s' (next_obj r) = createEmptyChat).
Proof.
  exists (snapshot s). split.
  { rewrite _doSave_localStorage. apply lookup_insert_eq. }
  cbv zeta.
  assert (Hl : forall x,
             chatToSave s = Some x ->
             deref (load (snapshot s) r) (next_obj r)
             = set_loaded true (deref s x)).
  { intros x Hx. unfold load, snapshot. simpl. rewrite Hx. simpl.
    destruct (user (app s)); simpl; apply deref_store_eq. }
  split; [|split; [|split]].
  - unfold load, snapshot. simpl.
    destruct (user (app s)), (deref s <$> chatToSave s); reflexivity.
  - intros Hs d Hd. apply Hl. unfold chatToSave. now rewrite Hd, Hs.
  - intros Hcase c Hc. apply Hl. unfold chatToSave.
    destruct Hcase as [Hs|Hu]; [|now rewrite Hu].
    rewrite Hs. now destruct (unsavedChat (app s)).
  - intros Hu Hc. unfold load, snapshot, chatToSave. rewrite Hu, Hc. simpl.
    destruct (user (app s)); simpl; unfold deref; simpl;
      apply lookup_total_insert_eq.
Qed.

Lemma flush_then_load_witness :
  isSaved saved_state_with_draft = true /\
  unsavedChat (app saved_state_with_draft) = Some 1%nat /\
  exists snap,
    localStorage (rt (_doSave saved_state_with_draft)) !! "appData"
    = Some snap /\
    deref (load snap empty_runtime) 0%nat = set_loaded true stashed_draft.
Proof.
  assert (Hs : isSaved saved_state_with_draft = true)
    by (vm_compute; reflexivity).
  split; [exact Hs|]. split; [reflexivity|].
  destruct (flush_then_load saved_state_with_draft empty_runtime)
    as (snap & H1 & _ & H2 & _).
  exists snap. split; [exact H1|].
  etransitivity; [exact (H2 Hs 1%nat eq_refl) | vm_compute; reflexivity].
Defined.

(** ** The current model *)

Lemma find_model_first (st : Settings) (pre post : list Model) (m : Model) :
  Forall (fun x => model_value x <> model st) pre ->
  model_value m = model st ->
  find_model (Some st) (pre ++ m :: post) = Normal (Some m).
Proof.
  intros Hpre Hm. induction Hpre as [|x pre Hx _ IH]; simpl.
  - rewrite Hm, String.eqb_refl. reflexivity.
  - destruct (String.eqb_spec (model_value x) (model st)); [contradiction|].
    exact IH.
Qed.

Lemma find_model_none (st : Settings) (ms : list Model) :
  Forall (fun x => model_value x <> model st) ms ->
  find_model (Some st) ms = Normal None.
Proof.
  induction 1 as [|x ms Hx _ IH]; simpl; [reflexivity|].
  destruct (String.eqb_spec (model_value x) (model st)); [contradiction|].
  exact IH.
Qed.

(** [getCurrentModel] returns the first model whose value is the model
    of the current chat's settings.  When no model has that value, or no
    chat is current, it returns the entry at index 1 of the models, which
    is [undefined] when there are fewer than two. *)
Theorem getCurrentModel_picks (s : St) :
  (forall c st pre m post,
     currentChat (app s) = Some c -> settings (deref s c) = Some st ->
     models (app s) = (pre ++ m :: post)%list ->
     Forall (fun x => model_value x <> model st) pre ->
     model_value m = model st ->
     getCurrentModel s = Normal (Some m)) /\
  (forall c st,
     currentChat (app s) = Some c -> settings (deref s c) = Some st ->
     Forall (fun x => model_value x <> model st) (models (app s)) ->
     getCurrentModel s = Normal (models (app s) !! 1%nat)) /\
  (currentChat (app s) = None ->
   getCurrentModel s = Normal (models (app s) !! 1%nat)) /\
  ((length (models (app s)) < 2)%nat ->
   models (app s) !! 1%nat = None).
Proof.
  unfold getCurrentModel. split; [|split; [|split]].
  - intros c st pre m post -> -> -> Hpre Hm.
    now rewrite find_model_first.
  - intros c st -> -> Hall. now rewrite find_model_none.
  - now intros ->.
  - intros Hlen. apply lookup_ge_None. lia.
Qed.

Lemma getCurrentModel_picks_witness :
  getCurrentModel draft_state_with_models
  = Normal (Some (mkModel "GPT-4" "gpt-4" 8192)).
Proof.
  refine (proj1 (getCurrentModel_picks draft_state_with_models) 0%nat
            new_Settings [mkModel "GPT-3.5" "gpt-3.5-turbo" 4096]
            (mkModel "GPT-4" "gpt-4" 8192) [] eq_refl _ eq_refl _ eq_refl).
  - vm_compute. reflexivity.
  - repeat constructor. simpl. discriminate.
Defined.

(** ** Reconciling with fetched chats *)

Lemma replace_first_by_id_ext (s1 s2 : St) (i : jsstr) (d : nat) (arr : list nat) :
  (forall x, x ∈ arr -> deref s1 x = deref s2 x) ->
  replace_first_by_id s1 i d arr = replace_first_by_id s2 i d arr.
Proof.
  induction arr as [|x arr IH]; intros H; simpl; [reflexivity|].
  rewrite (H x) by apply list_elem_of_here.
  rewrite IH; [reflexivity|]. intros y Hy. apply H. now apply list_elem_of_further.
Qed.

Lemma replace_first_by_id_found (s : St) (i : jsstr) (d x : nat)
    (pre post : list nat) :
  Forall (fun y => loose_eq (id (deref s y)) i = false) pre ->
  loose_eq (id (deref s x)) i = true ->
  replace_first_by_id s i d (pre ++ x :: post) = Some (pre ++ d :: post)%list.
Proof.
  intros Hpre Hx. induction Hpre as [|y pre Hy _ IH]; simpl.
  - now rewrite Hx.
  - now rewrite Hy, IH.
Qed.

Lemma replace_first_by_id_absent (s : St) (i : jsstr) (d : nat) (arr : list nat) :
  Forall (fun y => loose_eq (id (deref s y)) i = false) arr ->
  replace_first_by_id s i d arr = None.
Proof.
  induction 1 as [|y arr Hy _ IH]; simpl; [reflexivity|]. now rewrite Hy, IH.
Qed.

(** When the fetch of a chat answers, the fetched chat, marked loaded,
    becomes current; in the list of chats it takes the place of the first
    entry with its id and leaves the others as they are, and it goes last
    when no entry has its id. *)
Theorem openChat_resume_reconciles (data : Chat) (s : St) :
  (forall x, x ∈ chats (app s) -> x <> next_obj (rt s)) ->
  let d := next_obj (rt s) in
  let s' := openChat_resume data s in
  currentChat (app s') = Some d /\
  deref s' d = set_loaded true data /\
  (forall pre x post,
     chats (app s) = (pre ++ x :: post)%list ->
     Forall (fun y => loose_eq (id (deref s y)) (id data) = false) pre ->
     loose_eq (id (deref s x)) (id data) = true ->
     chats (app s') = (pre ++ d :: post)%list) /\
  (Forall (fun y => loose_eq (id (deref s y)) (id data) = false) (chats (app s)) ->
   chats (app s') = (chats (app s) ++ [d])%list).
Proof.
  intros Hfresh. cbv zeta. unfold openChat_resume. cbn -[replace_first_by_id].
  set (d := next_obj (rt s)) in *.
  set (X := store d _ _).
  assert (Hrep : replace_first_by_id X (id data) d (chats (app s))
                 = replace_first_by_id s (id data) d (chats (app s))).
  { apply replace_first_by_id_ext. intros x Hx. subst X.
    rewrite deref_store_ne by (specialize (Hfresh x Hx); congruence).
    now apply deref_heap_eq. }
  change (chats (app X)) with (chats (app s)). rewrite Hrep. clear Hrep.
  set (Y := match replace_first_by_id s (id data) d (chats (app s)) with
            | Some chats' => _ | None => _ end).
  assert (HY : heap (rt Y) = heap (rt X)).
  { subst Y. destruct (replace_first_by_id _ _ _ _); reflexivity. }
  destruct (publish_rt_app (on_app (set_currentChat (Some d)) Y))
    as (Ha & Hh & _).
  rewrite Ha. simpl. split; [reflexivity|]. split.
  { rewrite (deref_heap_eq _ X d) by (rewrite Hh; exact HY).
    subst X. apply deref_store_eq. }
  split.
  - intros pre x post Hl Hpre Hx. subst Y. rewrite Hl.
    now rewrite (replace_first_by_id_found s _ d x pre post Hpre Hx).
  - intros Hall. subst Y.
    now rewrite (replace_first_by_id_absent s _ d _ Hall).
Qed.

Lemma openChat_resume_reconciles_witness :
  (forall x, x ∈ chats (app saved_state) -> x <> next_obj (rt saved_state)) /\
  chats (app (openChat_resume saved_chat saved_state)) = [1%nat] /\
  chats (app (openChat_resume new_Chat saved_state)) = [0%nat; 1%nat].
Proof.
  assert (H : forall x, x ∈ chats (app saved_state) ->
                        x <> next_obj (rt saved_state)).
  { intros x Hx. change (x ∈ [0%nat]) in Hx.
    apply list_elem_of_singleton in Hx. subst x. vm_compute. discriminate. }
  split; [exact H|]. split.
  - exact (proj1 (proj2 (proj2 (openChat_resume_reconciles saved_chat
                                  saved_state H)))
             [] 0%nat [] eq_refl (Forall_nil_2 _)
             ltac:(vm_compute; reflexivity)).
  - refine (proj2 (proj2 (proj2 (openChat_resume_reconciles new_Chat
                                   saved_state H))) _).
    change (chats (app saved_state)) with [0%nat].
    repeat constructor.
Defined.

Lemma new_chats_spec (cs : list Chat) (s : St) :
  (new_chats cs s).1 = seq (next_obj (rt s)) (length cs) /\
  app (new_chats cs s).2 = app s /\
  next_obj (rt (new_chats cs s).2) = (next_obj (rt s) + length cs)%nat /\
  (forall k, (k < next_obj (rt s))%nat ->
     deref (new_chats cs s).2 k = deref s k) /\
  (forall i f, cs !! i = Some f ->
     deref (new_chats cs s).2 (next_obj (rt s) + i)%nat = f).
Proof.
  revert s. induction cs as [|c cs IH]; intros s.
  - simpl. repeat split; auto. intros i f Hi. discriminate.
  - simpl. unfold new_object.
    set (s1 := store (next_obj (rt s)) c _).
    specialize (IH s1). destruct (new_chats cs s1) as [rs s2].
    simpl in *. destruct IH as (H1 & H2 & H3 & H4 & H5).
    split; [now rewrite H1|]. split; [exact H2|]. split; [lia|]. split.
    + intros k Hk. rewrite H4 by lia. subst s1.
      rewrite deref_store_ne by lia. now apply deref_heap_eq.
    + intros [|i] f Hi; simpl in Hi.
      * injection Hi as <-. rewrite Nat.add_0_r, H4 by lia.
        subst s1. apply deref_store_eq.
      * replace (next_obj (rt s) + S i)%nat with (S (next_obj (rt s)) + i)%nat
          by lia.
        now apply H5.
Qed.

(** When the user's chats have been fetched, the list of chats has one
    entry per fetched chat, in order: the current chat itself wherever a
    fetched chat has its id, so that the copy in memory wins and is not
    changed, and a new chat with the fetched content elsewhere.  With no
    current chat, an empty loaded chat becomes current. *)
Theorem changeUser_resume_reconciles (fetched : list Chat) (s : St) :
  let s' := changeUser_resume fetched s in
  let n := next_obj (rt s) in
  length (chats (app s')) = length fetched /\
  (forall cur, currentChat (app s) = Some cur -> (cur < n)%nat ->
     currentChat (app s') = Some cur /\
     deref s' cur = deref s cur /\
     forall i f, fetched !! i = Some f ->
       (loose_eq (id f) (id (deref s cur)) = true ->
        chats (app s') !! i = Some cur) /\
       (loose_eq (id f) (id (deref s cur)) = false ->
        chats (app s') !! i = Some (n + i)%nat /\ deref s' (n + i)%nat = f)) /\
  (currentChat (app s) = None ->
   chats (app s') = seq n (length fetched) /\
   currentChat (app s') = Some (n + length fetched)%nat /\
   deref s' (n + length fetched)%nat = createEmptyChat).
Proof.
  cbv zeta. unfold changeUser_resume.
  destruct (new_chats_spec fetched s) as (H1 & H2 & H3 & H4 & H5).
  destruct (new_chats fetched s) as [rs s1]. simpl in H1, H2, H3, H4, H5.
  change (currentChat (app (on_app (set_chats rs) s1)))
    with (currentChat (app s1)).
  rewrite H2.
  destruct (currentChat (app s)) as [cur|] eqn:Hc.
  - set (Z := publish _).
    assert (Hd : forall k, deref Z k = deref s1 k).
    { intros k. apply deref_heap_eq. subst Z.
      now rewrite (proj1 (proj2 (publish_rt_app _))). }
    assert (Hch : chats (app Z)
                  = map (fun r => if loose_eq (id (deref s1 r)) (id (deref s1 cur))
                                  then cur else r) rs).
    { subst Z. now rewrite (proj1 (publish_rt_app _)). }
    assert (Hcz : currentChat (app Z) = currentChat (app s)).
    { subst Z. rewrite (proj1 (publish_rt_app _)). simpl. now rewrite H2. }
    rewrite Hch, Hcz, length_map, H1, length_seq.
    split; [reflexivity|]. split; [|discriminate].
    intros cur' [= <-] Hlt.
    rewrite (Hd cur), (H4 cur Hlt).
    split; [exact Hc|]. split; [reflexivity|].
    intros i f Hf.
    assert (Hi : (i < length fetched)%nat) by (eapply lookup_lt_Some; eauto).
    rewrite list_lookup_fmap, lookup_seq_lt by exact Hi.
    cbn [fmap option_fmap option_map].
    rewrite (H5 i f Hf).
    split; intros Hm; rewrite Hm; [reflexivity|].
    split; [reflexivity|]. rewrite Hd. now apply H5.
  - unfold new_object. cbv iota beta.
    set (Z := publish _).
    assert (Hd : deref Z (next_obj (rt s) + length fetched)%nat
                 = createEmptyChat).
    { subst Z.
      rewrite (deref_heap_eq _
                 (store (next_obj (rt s1)) createEmptyChat s1))
        by now rewrite (proj1 (proj2 (publish_rt_app _))).
      rewrite <- H3. apply deref_store_eq. }
    assert (Happ : chats (app Z) = rs /\
                   currentChat (app Z) = Some (next_obj (rt s1))).
    { subst Z. now rewrite (proj1 (publish_rt_app _)). }
    destruct Happ as [Hch Hcz].
    rewrite Hch, Hcz, H1, H3, length_seq.
    split; [reflexivity|]. split; [discriminate|]. intros _.
    split; [reflexivity|]. split; [reflexivity | exact Hd].
Qed.

Lemma changeUser_resume_reconciles_witness :
  currentChat (app saved_state) = Some 0%nat /\
  (0 < next_obj (rt saved_state))%nat /\
  chats (app (changeUser_resume [new_Chat; set_messages [] saved_chat]
                saved_state)) !! 1%nat = Some 0%nat.
Proof.
  split; [reflexivity|]. split; [vm_compute; lia|].
  destruct (proj1 (proj2 (changeUser_resume_reconciles
                            [new_Chat; set_messages [] saved_chat]
                            saved_state))
              0%nat eq_refl ltac:(vm_compute; lia))
    as (_ & _ & H).
  exact (proj1 (H 1%nat _ eq_refl) ltac:(vm_compute; reflexivity)).
Defined.

(** ** Frames and the captured index *)

(** Where a frame lands depends only on the captured index: inside the
    list it replaces that slot and nothing else; at or past the end the
    list grows up to the index, with empty slots in between; with the
    index -1 of a message that was not in the list, the list does not
    change at all. *)
Theorem onMessage_by_index (ws : nat) (data : Message) (s : St) (ex : Exchange) :
  sockets (rt s) !! ws = Some ex ->
  let ms := messages (deref s (ex_chat ex)) in
  let ms' := messages (deref (onMessage ws data s) (ex_chat ex)) in
  let frame := Some (mkMsgObj (next_obj (rt s)) data) in
  (forall i : nat, ex_index ex = Z.of_nat i -> (i < length ms)%nat ->
     ms' = <[i := frame]> ms /\ length ms' = length ms) /\
  (forall i : nat, ex_index ex = Z.of_nat i -> (length ms <= i)%nat ->
     ms' = (ms ++ replicate (i - length ms) None ++ [frame])%list /\
     length ms' = S i) /\
  (ex_index ex < 0 -> ms' = ms).
Proof.
  intros Hex. cbv zeta.
  rewrite (onMessage_writes_at_captured_index ws data s ex Hex).
  unfold array_set. split; [|split].
  - intros i Hi Hlt. rewrite Hi.
    destruct (Z.ltb_spec (Z.of_nat i) 0); [lia|].
    destruct (Z.ltb_spec (Z.of_nat i)
                (Z.of_nat (length (messages (deref s (ex_chat ex))))));
      [|lia].
    rewrite Nat2Z.id. split; [reflexivity | apply length_insert].
  - intros i Hi Hge. rewrite Hi.
    destruct (Z.ltb_spec (Z.of_nat i) 0); [lia|].
    destruct (Z.ltb_spec (Z.of_nat i)
                (Z.of_nat (length (messages (deref s (ex_chat ex))))));
      [lia|].
    rewrite Nat2Z.id. split; [reflexivity|].
    rewrite !length_app, length_replicate. simpl. lia.
  - intros Hneg. destruct (Z.ltb_spec (ex_index ex) 0); [reflexivity | lia].
Qed.

Lemma onMessage_by_index_witness :
  exists ex,
    sockets (rt (truncate first_message streaming_then_insert)) !! 0%nat
    = Some ex /\
    ex_index ex = Z.of_nat 1 /\
    messages (deref (onMessage 0 reply_frame
                       (truncate first_message streaming_then_insert)) 0%nat)
    = [Some inserted_message; Some (mkMsgObj 3 reply_frame)].
Proof.
  eexists. split; [vm_compute; reflexivity|]. split; [reflexivity|].
  refine (eq_trans
            (proj1 (proj1 (proj2 (onMessage_by_index 0 reply_frame
                                    (truncate first_message streaming_then_insert)
                                    _ ltac:(vm_compute; reflexivity)))
                      1%nat eq_refl ltac:(vm_compute; lia))) _).
  vm_compute. reflexivity.
Defined.

(** ** The migration, continued *)

Section MigrationEdges.

Variable ToNumber : json -> option Z.

Lemma get_prop_set_prop_ne (k k' : string) (v : json)
    (props : list (string * json)) :
  k <> k' -> get_prop k' (set_prop k v props) = get_prop k' props.
Proof.
  intros Hne. induction props as [|[k0 v0] rest IH]; simpl.
  - destruct (String.eqb_spec k k'); [contradiction | reflexivity].
  - destruct (String.eqb_spec k0 k) as [->|Hk0]; simpl.
    + destruct (String.eqb_spec k k'); [contradiction | reflexivity].
    + now rewrite IH.
Qed.

(** A blob with no version, or with a number other than 1 and 2 as its
    version, comes back unchanged; a version-2 blob comes back wrapped at
    version 3 with its content untouched; [null] makes the migration
    throw. *)
Theorem upgradeStoredData_by_version (props : list (string * json)) :
  (get_prop "serializationVersion" props = JUndefined \/
   (exists n, get_prop "serializationVersion" props = JNum n /\
              n <> 1 /\ n <> 2) ->
   upgradeStoredData ToNumber (JObj props) = Normal (JObj props)) /\
  (get_prop "serializationVersion" props = JNum 2 ->
   upgradeStoredData ToNumber (JObj props) = Normal (wrapped (JObj props))) /\
  upgradeStoredData ToNumber JNull = Throw "TypeError".
Proof.
  unfold upgradeStoredData. cbn [get]. split; [|split; [|reflexivity]].
  - intros [H|(n & H & H1 & H2)]; rewrite H; cbn [loose_eq_num].
    + cbn [get]. rewrite H. reflexivity.
    + destruct (Z.eqb_spec n 1); [contradiction|].
      cbn [get]. rewrite H. cbn [loose_eq_num].
      destruct (Z.eqb_spec n 2); [contradiction | reflexivity].
  - intros H. rewrite H. cbn [loose_eq_num].
    change (2 =? 1) with false. cbn [get]. rewrite H. reflexivity.
Qed.

(** The version-1 step on a message: a combined token counter that is
    set and not zero moves to [cost_tokens_completion] and the old
    property is left [undefined], every other property keeping its
    value; a message whose counter is absent or zero is not touched. *)
Theorem upgrade_message_renames (props : list (string * json)) :
  (truthy (get_prop "cost_tokens" props) = true ->
   exists props',
     upgrade_message (JObj props) = Normal (JObj props') /\
     get_prop "cost_tokens_completion" props' = get_prop "cost_tokens" props /\
     get_prop "cost_tokens" props' = JUndefined /\
     forall k, k <> "cost_tokens" -> k <> "cost_tokens_completion" ->
               get_prop k props' = get_prop k props) /\
  (truthy (get_prop "cost_tokens" props) = false ->
   upgrade_message (JObj props) = Normal (JObj props)).
Proof.
  unfold upgrade_message. split; intros ->; [|reflexivity].
  eexists. split; [reflexivity|]. split; [|split].
  - rewrite get_prop_set_prop_ne by discriminate. apply get_prop_set_prop.
  - apply get_prop_set_prop.
  - intros k H1 H2. rewrite !get_prop_set_prop_ne by congruence. reflexivity.
Qed.

End MigrationEdges.

Lemma upgradeStoredData_by_version_witness :
  upgradeStoredData (fun _ => None)
    (JObj [("user", JNull); ("chat", JNull); ("version", JNum 3)])
  = Normal (JObj [("user", JNull); ("chat", JNull); ("version", JNum 3)]).
Proof.
  apply (proj1 (upgradeStoredData_by_version (fun _ => None)
                  [("user", JNull); ("chat", JNull); ("version", JNum 3)])).
  left. reflexivity.
Defined.

Lemma upgrade_message_renames_witness :
  exists props',
    upgrade_message (JObj [("id", JStr "m1"); ("cost_tokens", JNum 7)])
    = Normal (JObj props') /\
    get_prop "cost_tokens_completion" props' = JNum 7.
Proof.
  destruct (proj1 (upgrade_message_renames
                     [("id", JStr "m1"); ("cost_tokens", JNum 7)]) eq_refl)
    as (props' & H1 & H2 & _).
  exists props'. split; [exact H1 | exact H2].
Defined.

Lemma upgradeStoredData_idempotent_witness :
  upgradeStoredData (fun _ => None) v1_chat
  = Normal (wrapped
      (JObj [("id", JStr "c1"); ("name", JStr "Notes");
             ("messages",
              JArr [JObj [("id", JStr "m1"); ("role", JStr "assistant");
                          ("message", JStr "hello");
                          ("cost_tokens", JUndefined);
                          ("cost_tokens_completion", JNum 7)]]);
             ("serializationVersion", JNum 2)])) /\
  upgradeStoredData (fun _ => None)
    (wrapped
      (JObj [("id", JStr "c1"); ("name", JStr "Notes");
             ("messages",
              JArr [JObj [("id", JStr "m1"); ("role", JStr "assistant");
                          ("message", JStr "hello");
                          ("cost_tokens", JUndefined);
                          ("cost_tokens_completion", JNum 7)]]);
             ("serializationVersion", JNum 2)]))
  = Normal (wrapped
      (JObj [("id", JStr "c1"); ("name", JStr "Notes");
             ("messages",
              JArr [JObj [("id", JStr "m1"); ("role", JStr "assistant");
                          ("message", JStr "hello");
                          ("cost_tokens", JUndefined);
                          ("cost_tokens_completion", JNum 7)]]);
             ("serializationVersion", JNum 2)])).
Proof.
  split; [reflexivity|].
  apply (upgradeStoredData_idempotent (fun _ => None) v1_chat). reflexivity.
Defined.

Lemma upgradeStoredData_v1_nonempty_witness :
  loose_eq_num (fun _ => None)
    (get_prop "serializationVersion"
       [("messages", JArr [JObj [("cost_tokens", JNum 7)]]);
        ("serializationVersion", JNum 1)]) 1 = true /\
  upgradeStoredData (fun _ => None)
    (JObj [("messages", JArr [JObj [("cost_tokens", JNum 7)]]);
           ("serializationVersion", JNum 1)])
  = Normal (wrapped
      (JObj [("messages",
              JArr [JObj [("cost_tokens", JUndefined);
                          ("cost_tokens_completion", JNum 7)]]);
             ("serializationVersion", JNum 2)])).
Proof.
  split; [reflexivity|].
  exact (upgradeStoredData_v1_nonempty (fun _ => None)
           [("messages", JArr [JObj [("cost_tokens", JNum 7)]]);
            ("serializationVersion", JNum 1)]
           (JObj [("cost_tokens", JNum 7)]) []
           [JObj [("cost_tokens", JUndefined);
                  ("cost_tokens_completion", JNum 7)]]
           eq_refl eq_refl eq_refl).
Defined.

Lemma temperature_rounding_witness :
  0 <= 99 <= 100 /\ temperature_nearest 99 = true.
Proof. split; [lia|]. apply temperature_rounding. lia. Defined.

(** ** One exchange at a time *)

(** Starting an exchange while another one is open closes the socket of
    the old one first, and the object then holds the new socket only. *)
Theorem chat_replaces_exchange prompt model determinism maxTokens api_key
    messages_ message_ (s : St) (c w : nat) :
  currentChat (app s) = Some c ->
  streamWebSocket (app s) = Some w ->
  let s' := chat prompt model determinism maxTokens api_key messages_
              message_ s in
  streamWebSocket (app s') = Some (next_ws (rt s)) /\
  busy (app s') = true /\
  exists before, log (rt s')
                 = WsBuilt (next_ws (rt s)) :: WsClosed w :: before.
Proof.
  intros Hc Hw s'. subst s'. unfold chat.
  change (currentChat (app (on_app (set_busy true) (cancel s))))
    with (currentChat (app (cancel s))).
  rewrite cancel_app. simpl currentChat. rewrite Hc.
  destruct (cancel_counters s) as (_ & _ & Hnw & _).
  destruct message_ as [m|]; cbn -[cancel temperature];
    rewrite Hnw, cancel_log, Hw;
    (split; [reflexivity|]); (split; [reflexivity|]);
    eexists; reflexivity.
Qed.

Lemma chat_replaces_exchange_witness :
  currentChat (app streaming_then_insert) = Some 0%nat /\
  streamWebSocket (app streaming_then_insert) = Some 0%nat /\
  streamWebSocket
    (app (chat "" "gpt-4" 50 1000 "" None None streaming_then_insert))
  = Some 1%nat.
Proof.
  split; [reflexivity|]. split; [reflexivity|].
  exact (proj1 (chat_replaces_exchange "" "gpt-4" 50%float 1000 "" None None
                  streaming_then_insert 0%nat 0%nat eq_refl eq_refl)).
Defined.
